(** * wmbusmeters: start-up sequence and oneshot controller (src/main.cc)

    A shallow embedding of [startUsingCommandline] and [oneshotCheck].
    The program is effectful: it logs, opens a radio dongle, registers
    callbacks and may exit. Every external call is recorded as an [Event]
    of a trace, in program order, and a computation ends by returning, by
    [exit(code)] or by the fatal [error(...)]. *)

From Stdlib Require Import List String Ascii Bool ZArith NArith Lia.
Import ListNotations.
Open Scope string_scope.
Open Scope list_scope.

(** ** Data model *)

(** The device kinds of the [switch] at main.cc:168-208. *)
Inductive MBusDeviceType : Type :=
| DEVICE_IM871A
| DEVICE_AMB8465
| DEVICE_SIMULATOR
| DEVICE_RTLWMBUS
| DEVICE_UNKNOWN.

(** The meter kinds of the [switch] at main.cc:245-281. *)
Inductive MeterType : Type :=
| MULTICAL21_METER
| FLOWIQ3100_METER
| MULTICAL302_METER
| OMNIPOWER_METER
| SUPERCOM587_METER
| IPERL_METER
| QCALORIC_METER
| APATOR162_METER
| UNKNOWN_METER.

(** Modelled from the spec: the enumeration [LinkMode] is declared in
    wmbus.h; the specification lists C1, T1, N1 and the sentinel ANY of the
    adapters that hear several modes at once. *)
Inductive LinkMode : Type := C1 | T1 | N1 | ANY.

Definition LinkMode_eqb (a b : LinkMode) : bool :=
  match a, b with
  | C1, C1 | T1, T1 | N1, N1 | ANY, ANY => true
  | _, _ => false
  end.

Definition MBusDeviceType_eqb (a b : MBusDeviceType) : bool :=
  match a, b with
  | DEVICE_IM871A, DEVICE_IM871A
  | DEVICE_AMB8465, DEVICE_AMB8465
  | DEVICE_SIMULATOR, DEVICE_SIMULATOR
  | DEVICE_RTLWMBUS, DEVICE_RTLWMBUS
  | DEVICE_UNKNOWN, DEVICE_UNKNOWN => true
  | _, _ => false
  end.

Inductive MeterFileType : Type := Overwrite | Append.

Definition MeterFileType_eqb (a b : MeterFileType) : bool :=
  match a, b with
  | Overwrite, Overwrite | Append, Append => true
  | _, _ => false
  end.

(** One meter quadruple of the command line. *)
Module MeterInfo.
Record t : Type := mk {
  name : string;
  type : string;
  id : string;
  key : string
}.
End MeterInfo.

(** The fields of [Configuration] that main.cc reads or writes. *)
Module Configuration.
Record t : Type := mk {
  daemon : bool;
  use_logfile : bool;
  logfile : string;
  silence : bool;
  verbose : bool;
  logtelegrams : bool;
  debug : bool;
  exitafter : Z;
  meterfiles : bool;
  meterfiles_dir : string;
  meterfiles_action : MeterFileType;
  device : string;
  device_extra : string;
  meters : list MeterInfo.t;
  link_mode_set : bool;
  link_mode : LinkMode;
  json : bool;
  fields : bool;
  separator : ascii;
  shells : list string;
  list_shell_envs : bool;
  oneshot : bool
}.

(** [config->link_mode = lm; config->link_mode_set = true;] *)
Definition with_link_mode (c : t) (lm : LinkMode) : t :=
  mk (daemon c) (use_logfile c) (logfile c) (silence c) (verbose c)
     (logtelegrams c) (debug c) (exitafter c) (meterfiles c)
     (meterfiles_dir c) (meterfiles_action c) (device c) (device_extra c)
     (meters c) true lm (json c) (fields c) (separator c) (shells c)
     (list_shell_envs c) (oneshot c).
End Configuration.

(** A received telegram: the bytes as the adapter framed them. *)
Record Telegram : Type := mkTelegram { raw : list N }.

(** The factory that built a meter instance ([createMultical21], ...). *)
Inductive MeterFactory : Type :=
| Multical21
| Multical302
| Omnipower
| Supercom587
| Iperl
| QCaloric
| Apator162.

(** The two closures registered with [onUpdate] at main.cc:299-300. They
    capture [output], [config], [manager] and [meters] by reference, so they
    are interpreted against the state current at the time of the call. *)
Inductive UpdateCallback : Type :=
| CbOutputPrint      (* output->print(t, meter) *)
| CbOneshotCheck.    (* oneshotCheck(config, manager, t, meter, meters) *)

(** The closure registered with [wmbus->onTelegram] at main.cc:305. *)
Inductive TelegramCallback : Type :=
| CbTelegramPrint.   (* t->print() *)

(** Modelled from the spec: the class [Meter] is declared in meters.h. A
    meter instance is its configuration tuple (the factories receive name,
    id and key), the update count, a counter that starts at zero, and the
    ordered list of update callbacks. *)
Module Meter.
Record t : Type := mk {
  factory : MeterFactory;
  name : string;
  id : string;
  key : string;
  numUpdates : N;
  on_update : list UpdateCallback
}.

(** [meter->onUpdate(cb)]: the callback is appended to the list. *)
Definition onUpdate (cb : UpdateCallback) (m : t) : t :=
  mk (factory m) (name m) (id m) (key m) (numUpdates m) (on_update m ++ [cb]).

(** The update count goes up by one. *)
Definition bump (m : t) : t :=
  mk (factory m) (name m) (id m) (key m) (N.succ (numUpdates m)) (on_update m).
End Meter.

(** The serial multiplexer, as far as main.cc drives it. *)
Module SerialCommunicationManager.
Record t : Type := mk {
  exit_after : Z;
  running : bool
}.
End SerialCommunicationManager.

(** The opened radio adapter. *)
Module WMBus.
Record t : Type := mk {
  kind : MBusDeviceType;
  link_mode : option LinkMode;
  telegram_listeners : list TelegramCallback
}.
End WMBus.

(** The arguments of [new Printer(...)] at main.cc:235-239. *)
Module Printer.
Record t : Type := mk {
  json : bool;
  fields : bool;
  separator : ascii;
  meterfiles : bool;
  meterfiles_dir : string;
  use_logfile : bool;
  logfile : string;
  shells : list string;
  overwrite : bool
}.
End Printer.

(** ** Events and the monad of runs *)

Inductive LogLevel : Type := LVerbose | LDebug | LWarning | LNotice | LError.

(** A printf argument. *)
Inductive Arg : Type :=
| AStr (s : string)
| AInt (z : Z).

Inductive Event : Type :=
| Log (lvl : LogLevel) (fmt : string) (args : list Arg)
| Printf (fmt : string) (args : list Arg)
| EnableLogfile (file : string) (daemon : bool)
| WarningSilenced (b : bool)
| VerboseEnabled (b : bool)
| LogTelegramsEnabled (b : bool)
| DebugEnabled (b : bool)
| CreateSerialCommunicationManager (exitafter : Z)
| OnExit
| DetectMBusDevice (device : string) (found : MBusDeviceType) (path : string)
| OpenDevice (kind : MBusDeviceType) (arg : string)
| Sleep (seconds : Z)
| SetLinkMode (lm : LinkMode)
| NewPrinter (p : Printer.t)
| CreateMeter (f : MeterFactory) (name id key : string)
| PrintMeter (name : string)
| OnUpdate (cb : UpdateCallback)
| OnTelegram (cb : TelegramCallback)
| Simulate
| WaitForStop
| Stop
| OutputPrint (t : Telegram) (name : string)
| TelegramPrint (t : Telegram)
| DecryptionFailed (t : Telegram) (name : string).

(** How a computation ends. [Aborted] is the fatal [error(...)] of util.h. *)
Inductive Outcome (A : Type) : Type :=
| Returned (a : A)
| Exited (code : Z)
| Aborted.
Arguments Returned {A} a.
Arguments Exited {A} code.
Arguments Aborted {A}.

Record Run (A : Type) : Type := mkRun {
  events : list Event;
  outcome : Outcome A
}.
Arguments mkRun {A} events outcome.
Arguments events {A} r.
Arguments outcome {A} r.

Definition ret {A : Type} (a : A) : Run A := mkRun [] (Returned a).

Definition bind {A B : Type} (m : Run A) (f : A -> Run B) : Run B :=
  match outcome m with
  | Returned a => mkRun (events m ++ events (f a)) (outcome (f a))
  | Exited c => mkRun (events m) (Exited c)
  | Aborted => mkRun (events m) Aborted
  end.

Declare Scope run_scope.
Delimit Scope run_scope with run.
Notation "x <- m ;; k" := (bind m (fun x => k))
  (at level 100, m at next level, right associativity) : run_scope.
Notation "m ;; k" := (bind m (fun _ => k))
  (at level 100, right associativity) : run_scope.
Open Scope run_scope.

Definition emit (e : Event) : Run unit := mkRun [e] (Returned tt).

Definition exit {A : Type} (code : Z) : Run A := mkRun [] (Exited code).

Definition verbose (fmt : string) (args : list Arg) : Run unit :=
  emit (Log LVerbose fmt args).
Definition debug (fmt : string) (args : list Arg) : Run unit :=
  emit (Log LDebug fmt args).
Definition warning (fmt : string) (args : list Arg) : Run unit :=
  emit (Log LWarning fmt args).
Definition notice (fmt : string) (args : list Arg) : Run unit :=
  emit (Log LNotice fmt args).

(** Modelled from the spec: [error] is declared in util.h. Configuration
    and device-discovery errors are fatal: the message is logged and the
    process terminates, so [error] does not return to its caller. *)
Definition error {A : Type} (fmt : string) (args : list Arg) : Run A :=
  mkRun [Log LError fmt args] Aborted.

Definition when (b : bool) (m : Run unit) : Run unit :=
  if b then m else ret tt.

Definition returned {A : Type} (r : Run A) : bool :=
  match outcome r with
  | Returned _ => true
  | _ => false
  end.

(** ** oneshotCheck (main.cc:323-333) *)

(** [manager->stop()] *)
Definition stop (manager : SerialCommunicationManager.t)
  : Run SerialCommunicationManager.t :=
  emit Stop ;;
  ret (SerialCommunicationManager.mk
         (SerialCommunicationManager.exit_after manager) false).

(** The [for] loop of lines 327-329: [true] when it runs to its end,
    [false] when it leaves the function through [return]. *)
Fixpoint all_updated (meters : list Meter.t) : bool :=
  match meters with
  | [] => true
  | m :: rest =>
      if (Meter.numUpdates m =? 0)%N then false else all_updated rest
  end.

Definition oneshotCheck (config : Configuration.t)
  (manager : SerialCommunicationManager.t) (t : Telegram) (meter : Meter.t)
  (meters : list Meter.t) : Run SerialCommunicationManager.t :=
  if negb (Configuration.oneshot config) then ret manager
  else if negb (all_updated meters) then ret manager
  else
    verbose "(main) all meters have received at least one update, stopping.\n" [] ;;
    stop manager.

(** ** What main.cc takes from the other translation units *)

(** Functions and constants that main.cc calls and that are declared in
    cmdline.h, meters.h, util.h and wmbus.h. They are pure parameters of the
    development: every theorem holds whatever they compute. *)
Class Externals : Type := {
  WMBUSMETERS_VERSION : string;
  enableLogfile : string -> bool -> bool;
  detectMBusDevice : string -> MBusDeviceType * string;
  isFrequency : string -> bool;
  toMeterLinkMode : string -> LinkMode;
  toMeterType : string -> MeterType;
  linkModeName : LinkMode -> string;
  (** what [getLinkMode] reports for an adapter kind and the mode last set *)
  getLinkMode : MBusDeviceType -> LinkMode -> LinkMode;
  (** the [envs] that [printMeter] fills in *)
  printMeter : Meter.t -> ascii -> list string;
  (** the identification rule of a meter instance *)
  matches : MeterFactory -> string -> Telegram -> bool;
  (** whether the payload of a telegram decrypts under a key *)
  decrypts : MeterFactory -> string -> Telegram -> bool
}.

Notation "a +++ b" := (String.append a b) (at level 60, right associativity).

(** The double-quote character of the C format strings. *)
Definition dq : string := String (ascii_of_nat 34) EmptyString.

(** What the program has built when it enters the event loop. *)
Record System : Type := mkSystem {
  sys_config : Configuration.t;
  sys_device : MBusDeviceType * string;
  sys_manager : SerialCommunicationManager.t;
  sys_wmbus : WMBus.t;
  sys_output : Printer.t;
  sys_meters : list Meter.t
}.

Definition with_manager (sys : System) (manager : SerialCommunicationManager.t)
  : System :=
  mkSystem (sys_config sys) (sys_device sys) manager (sys_wmbus sys)
           (sys_output sys) (sys_meters sys).

Definition with_meters (sys : System) (meters : list Meter.t) : System :=
  mkSystem (sys_config sys) (sys_device sys) (sys_manager sys) (sys_wmbus sys)
           (sys_output sys) meters.

(** [meters.back()]: the last element of the vector. *)
Fixpoint back (meters : list Meter.t) : option Meter.t :=
  match meters with
  | [] => None
  | [m] => Some m
  | _ :: rest => back rest
  end.

(** [meters.back()->f()]: [f] applied to the last element of the vector. *)
Fixpoint update_back (f : Meter.t -> Meter.t) (meters : list Meter.t)
  : list Meter.t :=
  match meters with
  | [] => []
  | [m] => [f m]
  | m :: rest => m :: update_back f rest
  end.

(** [int p = e.find('=')]: the [size_t] that [find] gives (the index of the
    first ['='], or [npos], 2^64 - 1, when there is none) is stored in an
    [int] of 32 bits. The conversion keeps the value modulo 2^32 and reads
    it in two's complement: [Some p] for a [p] that is not negative,
    [None] for a negative one. *)
Definition int_of_find (found : option nat) : option nat :=
  match found with
  | Some i =>
      let p := (N.of_nat i mod 2 ^ 32)%N in
      if (p <? 2 ^ 31)%N then Some (N.to_nat p) else None
  | None => None
  end.

(** [string key = e.substr(0,p)]: [substr] takes its length as a [size_t],
    so a negative [p] is a length beyond every string and the whole entry is
    the key; this is also what happens when there is no ['='], where [p] is
    -1. *)
Definition env_key (e : string) : string :=
  match int_of_find (index 0 "=" e) with
  | Some p => substring 0 p e
  | None => e
  end.

Section Program.
Context {X : Externals}.

(** *** startUsingCommandline (main.cc:126-321), block by block *)

(** Lines 128-138. *)
Definition openLogfile (config : Configuration.t) : Run unit :=
  when (Configuration.use_logfile config)
    (verbose "(wmbusmeters) using log file %s\n"
             [AStr (Configuration.logfile config)] ;;
     emit (EnableLogfile (Configuration.logfile config)
                         (Configuration.daemon config)) ;;
     let ok := enableLogfile (Configuration.logfile config)
                             (Configuration.daemon config) in
     when (negb ok)
       (if Configuration.daemon config
        then warning "Could not open log file, will use syslog instead.\n" []
        else error "Could not open log file.\n" [])).

(** Lines 140-158. *)
Definition announce (config : Configuration.t) : Run unit :=
  emit (WarningSilenced (Configuration.silence config)) ;;
  emit (VerboseEnabled (Configuration.verbose config)) ;;
  emit (LogTelegramsEnabled (Configuration.logtelegrams config)) ;;
  emit (DebugEnabled (Configuration.debug config)) ;;
  debug ("(wmbusmeters) version: " +++ WMBUSMETERS_VERSION +++ "\n") [] ;;
  when (negb (Configuration.exitafter config =? 0)%Z)
    (verbose "(config) wmbusmeters will exit after %d seconds\n"
             [AInt (Configuration.exitafter config)]) ;;
  when (Configuration.meterfiles config)
    (verbose ("(config) store meter files in: " +++ dq +++ "%s" +++ dq +++ "\n")
             [AStr (Configuration.meterfiles_dir config)]) ;;
  verbose "(config) using device: %s\n" [AStr (Configuration.device config)] ;;
  when (0 <? String.length (Configuration.device_extra config))%nat
    (verbose "(config) with: %s\n"
             [AStr (Configuration.device_extra config)]) ;;
  verbose "(config) number of meters: %d\n"
          [AInt (Z.of_nat (List.length (Configuration.meters config)))].

(** Lines 160-166. *)
Definition detect (config : Configuration.t)
  : Run (SerialCommunicationManager.t * (MBusDeviceType * string)) :=
  emit (CreateSerialCommunicationManager (Configuration.exitafter config)) ;;
  emit OnExit ;;
  let type_and_device := detectMBusDevice (Configuration.device config) in
  emit (DetectMBusDevice (Configuration.device config)
                         (fst type_and_device) (snd type_and_device)) ;;
  ret (SerialCommunicationManager.mk (Configuration.exitafter config) true,
       type_and_device).

Definition opened (kind : MBusDeviceType) (arg : string) : Run WMBus.t :=
  emit (OpenDevice kind arg) ;;
  ret (WMBus.mk kind None []).

(** The command line of the [DEVICE_RTLWMBUS] case, lines 183-195. *)
Definition rtlwmbus_command (config : Configuration.t) : string :=
  let command := Configuration.device_extra config in
  let freq := "868.95M" in
  let prefix := EmptyString in
  let '(freq, command) :=
    if isFrequency command then (command, EmptyString) else (freq, command) in
  let prefix := if Configuration.daemon config then "/usr/bin/" else prefix in
  if String.eqb command EmptyString
  then prefix +++ "rtl_sdr -f " +++ freq +++ " -s 16000000 - 2>/dev/null | "
              +++ prefix +++ "rtl_wmbus"
  else command.

(** The [switch] of lines 168-208. *)
Definition openDevice (config : Configuration.t)
  (type_and_device : MBusDeviceType * string) : Run WMBus.t :=
  match fst type_and_device with
  | DEVICE_IM871A =>
      verbose "(im871a) detected on %s\n" [AStr (snd type_and_device)] ;;
      opened DEVICE_IM871A (snd type_and_device)
  | DEVICE_AMB8465 =>
      verbose "(amb8465) detected on %s\n" [AStr (snd type_and_device)] ;;
      opened DEVICE_AMB8465 (snd type_and_device)
  | DEVICE_SIMULATOR =>
      verbose "(simulator) found %s\n" [AStr (snd type_and_device)] ;;
      opened DEVICE_SIMULATOR (snd type_and_device)
  | DEVICE_RTLWMBUS =>
      let command := rtlwmbus_command config in
      verbose "(rtlwmbus) using command: %s\n" [AStr command] ;;
      opened DEVICE_RTLWMBUS command
  | DEVICE_UNKNOWN =>
      warning "No wmbus device found! Exiting!\n" [] ;;
      when (Configuration.daemon config) (emit (Sleep 1)) ;;
      exit 1
  end.

(** The [for] loop of lines 213-223 over [config->meters]; the loop
    writes [link_mode] and [link_mode_set] of the configuration. *)
Fixpoint examineMeters (kind : MBusDeviceType) (ms : list MeterInfo.t)
  (config : Configuration.t) : Run Configuration.t :=
  match ms with
  | [] => ret config
  | m :: rest =>
      if negb (Configuration.link_mode_set config) then
        examineMeters kind rest
          (Configuration.with_link_mode config
             (toMeterLinkMode (MeterInfo.type m)))
      else
        when (negb (LinkMode_eqb (Configuration.link_mode config)
                                 (toMeterLinkMode (MeterInfo.type m)))
              && negb (MBusDeviceType_eqb kind DEVICE_RTLWMBUS))
          (error "A different link mode has been set already.\n" []) ;;
        examineMeters kind rest config
  end.

(** Lines 210-229. *)
Definition chooseLinkMode (kind : MBusDeviceType) (config : Configuration.t)
  : Run Configuration.t :=
  config <- (if negb (Configuration.link_mode_set config)
             then examineMeters kind (Configuration.meters config) config
             else ret config) ;;
  when (negb (Configuration.link_mode_set config)
        && negb (MBusDeviceType_eqb kind DEVICE_RTLWMBUS)
        && negb (MBusDeviceType_eqb kind DEVICE_SIMULATOR))
    (error "If you specify no meters, you have to specify the link mode: --c1 or --t1\n" []) ;;
  ret config.

(** Lines 230-233. *)
Definition setLinkMode (wmbus : WMBus.t) (lm : LinkMode) : Run WMBus.t :=
  emit (SetLinkMode lm) ;;
  let wmbus := WMBus.mk (WMBus.kind wmbus) (Some lm)
                        (WMBus.telegram_listeners wmbus) in
  let using_link_mode := linkModeName (getLinkMode (WMBus.kind wmbus) lm) in
  verbose "(config) using link mode: %s\n" [AStr using_link_mode] ;;
  ret wmbus.

(** Lines 235-239. *)
Definition printerArguments (config : Configuration.t) : Printer.t :=
  Printer.mk (Configuration.json config) (Configuration.fields config)
    (Configuration.separator config) (Configuration.meterfiles config)
    (Configuration.meterfiles_dir config)
    (Configuration.use_logfile config) (Configuration.logfile config)
    (Configuration.shells config)
    (MeterFileType_eqb (Configuration.meterfiles_action config) Overwrite).

Definition newPrinter (config : Configuration.t) : Run Printer.t :=
  emit (NewPrinter (printerArguments config)) ;;
  ret (printerArguments config).

(** Modelled from the spec: the factories [createMultical21], ... are
    declared in meters.h. Construction takes (name, id, key); the new
    instance has update count zero and no update callback yet. *)
Definition createMeter (f : MeterFactory) (name id key : string)
  : Run Meter.t :=
  emit (CreateMeter f name id key) ;;
  ret (Meter.mk f name id key 0%N []).

Definition createMultical21 := createMeter Multical21.
Definition createMultical302 := createMeter Multical302.
Definition createOmnipower := createMeter Omnipower.
Definition createSupercom587 := createMeter Supercom587.
Definition createIperl := createMeter Iperl.
Definition createQCaloric := createMeter QCaloric.
Definition createApator162 := createMeter Apator162.

(** Line 244: [(m.key[0] == 0) ? "not-encrypted" : "encrypted"]. *)
Definition keymsg (key : string) : string :=
  match key with
  | EmptyString => "not-encrypted"
  | String c _ => if Ascii.eqb c Ascii.zero then "not-encrypted" else "encrypted"
  end.

(** [meters.push_back(create(...)); verbose("(tag) configured ...")],
    the body shared by the eight cases of lines 246-277. *)
Definition configured (create : string -> string -> string -> Run Meter.t)
  (tag : string) (m : MeterInfo.t) (meters : list Meter.t)
  : Run (list Meter.t) :=
  meter <- create (MeterInfo.name m) (MeterInfo.id m) (MeterInfo.key m) ;;
  verbose ("(" +++ tag +++ ") configured " +++ dq +++ "%s" +++ dq +++ " "
               +++ dq +++ tag +++ dq +++ " " +++ dq +++ "%s" +++ dq +++ " %s\n")
          [AStr (MeterInfo.name m); AStr (MeterInfo.id m);
           AStr (keymsg (MeterInfo.key m))] ;;
  ret (meters ++ [meter]).

(** The [switch] of lines 245-281. *)
Definition constructMeter (m : MeterInfo.t) (meters : list Meter.t)
  : Run (list Meter.t) :=
  match toMeterType (MeterInfo.type m) with
  | MULTICAL21_METER => configured createMultical21 "multical21" m meters
  | FLOWIQ3100_METER => configured createMultical21 "flowiq3100" m meters
  | MULTICAL302_METER => configured createMultical302 "multical302" m meters
  | OMNIPOWER_METER => configured createOmnipower "omnipower" m meters
  | SUPERCOM587_METER => configured createSupercom587 "supercom587" m meters
  | IPERL_METER => configured createIperl "iperl" m meters
  | QCALORIC_METER => configured createQCaloric "qcaloric" m meters
  | APATOR162_METER => configured createApator162 "apator162" m meters
  | UNKNOWN_METER =>
      error ("No such meter type " +++ dq +++ "%s" +++ dq +++ "\n")
            [AStr (MeterInfo.type m)]
  end.

(** The [for] loop of lines 292-296. *)
Fixpoint printEnvs (envs : list string) : Run unit :=
  match envs with
  | [] => ret tt
  | e :: rest => emit (Printf "%s\n" [AStr (env_key e)]) ;; printEnvs rest
  end.

(** Lines 282-298, entered when [config->list_shell_envs] holds. Every
    case of the switch that returns has pushed a meter, so [back] finds
    one. *)
Definition listShellEnvs (config : Configuration.t) (m : MeterInfo.t)
  (meters : list Meter.t) : Run unit :=
  match back meters with
  | Some meter =>
      emit (PrintMeter (Meter.name meter)) ;;
      emit (Printf "Environment variables provided to shell for meter %s:\n"
                   [AStr (MeterInfo.type m)]) ;;
      printEnvs (printMeter meter (Configuration.separator config)) ;;
      exit 0
  | None => exit 0
  end.

(** [meters.back()->onUpdate(cb)] *)
Definition onUpdate_back (cb : UpdateCallback) (meters : list Meter.t)
  : Run (list Meter.t) :=
  emit (OnUpdate cb) ;;
  ret (update_back (Meter.onUpdate cb) meters).

(** The [for] loop of lines 243-301. *)
Fixpoint configureMeters (config : Configuration.t) (ms : list MeterInfo.t)
  (meters : list Meter.t) : Run (list Meter.t) :=
  match ms with
  | [] => ret meters
  | m :: rest =>
      meters <- constructMeter m meters ;;
      when (Configuration.list_shell_envs config)
           (listShellEnvs config m meters) ;;
      meters <- onUpdate_back CbOutputPrint meters ;;
      meters <- onUpdate_back CbOneshotCheck meters ;;
      configureMeters config rest meters
  end.

(** [wmbus->onTelegram(cb)] *)
Definition onTelegram (wmbus : WMBus.t) (cb : TelegramCallback)
  : Run WMBus.t :=
  emit (OnTelegram cb) ;;
  ret (WMBus.mk (WMBus.kind wmbus) (WMBus.link_mode wmbus)
                (WMBus.telegram_listeners wmbus ++ [cb])).

(** Lines 240-306. *)
Definition setupMeters (config : Configuration.t) (wmbus : WMBus.t)
  : Run (WMBus.t * list Meter.t) :=
  if (0 <? List.length (Configuration.meters config))%nat then
    meters <- configureMeters config (Configuration.meters config) [] ;;
    ret (wmbus, meters)
  else
    notice "No meters configured. Printing id:s of all telegrams heard!\n\n" [] ;;
    wmbus <- onTelegram wmbus CbTelegramPrint ;;
    ret (wmbus, []).

(** Lines 168-306: from the opening of the detected device to the
    registration of the callbacks. *)
Definition configure (config : Configuration.t)
  (manager : SerialCommunicationManager.t)
  (type_and_device : MBusDeviceType * string) : Run System :=
  wmbus <- openDevice config type_and_device ;;
  config <- chooseLinkMode (fst type_and_device) config ;;
  wmbus <- setLinkMode wmbus (Configuration.link_mode config) ;;
  output <- newPrinter config ;;
  wm <- setupMeters config wmbus ;;
  ret (mkSystem config type_and_device manager (fst wm) output (snd wm)).

(** Lines 128-306: everything up to the point where telegrams can be
    delivered. *)
Definition startup (config : Configuration.t) : Run System :=
  openLogfile config ;;
  announce config ;;
  md <- detect config ;;
  configure config (fst md) (snd md).

(** *** Telegram dispatch *)

(** The bodies of the two closures of lines 299-300. *)
Definition invokeUpdate (cb : UpdateCallback) (t : Telegram)
  (meter : Meter.t) (sys : System) : Run System :=
  match cb with
  | CbOutputPrint =>
      emit (OutputPrint t (Meter.name meter)) ;;
      ret sys
  | CbOneshotCheck =>
      manager <- oneshotCheck (sys_config sys) (sys_manager sys) t meter
                              (sys_meters sys) ;;
      ret (with_manager sys manager)
  end.

(** Modelled from the spec: the callback list of a meter is walked by code
    of meters.h. All registered update callbacks are invoked in
    registration order. *)
Fixpoint invokeUpdates (cbs : list UpdateCallback) (t : Telegram)
  (meter : Meter.t) (sys : System) : Run System :=
  match cbs with
  | [] => ret sys
  | cb :: rest =>
      sys <- invokeUpdate cb t meter sys ;;
      invokeUpdates rest t meter sys
  end.

(** Where a telegram goes. *)
Inductive Routing : Type :=
| NoMatch
| Dropped (meter : Meter.t)
| Handled (meter : Meter.t) (meters : list Meter.t).

(** Modelled from the spec: telegrams are routed by code of wmbus.h and
    meters.h. Meter instances are tried in insertion order and the first
    matching meter handles the telegram; when decryption fails the
    telegram is dropped and the update count is not incremented; on
    handle the update count is incremented. *)
Fixpoint route (t : Telegram) (meters : list Meter.t) : Routing :=
  match meters with
  | [] => NoMatch
  | m :: rest =>
      if matches (Meter.factory m) (Meter.id m) t then
        if decrypts (Meter.factory m) (Meter.key m) t
        then Handled (Meter.bump m) (Meter.bump m :: rest)
        else Dropped m
      else
        match route t rest with
        | NoMatch => NoMatch
        | Dropped m' => Dropped m'
        | Handled m' rest' => Handled m' (m :: rest')
        end
  end.

(** The body of the closure of line 305. *)
Definition invokeListener (cb : TelegramCallback) (t : Telegram) : Run unit :=
  match cb with
  | CbTelegramPrint => emit (TelegramPrint t)
  end.

Fixpoint invokeListeners (cbs : list TelegramCallback) (t : Telegram)
  : Run unit :=
  match cbs with
  | [] => ret tt
  | cb :: rest => invokeListener cb t ;; invokeListeners rest t
  end.

(** Modelled from the spec: one telegram emitted by the adapter. A
    telegram that no meter takes goes to the listeners registered with
    [onTelegram]. *)
Definition handleTelegram (t : Telegram) (sys : System) : Run System :=
  match route t (sys_meters sys) with
  | Handled meter meters =>
      invokeUpdates (Meter.on_update meter) t meter (with_meters sys meters)
  | Dropped meter =>
      emit (DecryptionFailed t (Meter.name meter)) ;;
      ret sys
  | NoMatch =>
      invokeListeners (WMBus.telegram_listeners (sys_wmbus sys)) t ;;
      ret sys
  end.

(** Modelled from the spec: the event loop belongs to serial.h. Telegrams
    are delivered in arrival order; the callbacks of the current telegram
    complete before a stop takes effect, and after a stop no further
    telegram is dispatched. *)
Fixpoint deliver (ts : list Telegram) (sys : System) : Run System :=
  match ts with
  | [] => ret sys
  | t :: rest =>
      if SerialCommunicationManager.running (sys_manager sys) then
        sys <- handleTelegram t sys ;;
        deliver rest sys
      else ret sys
  end.

(** Lines 308-320. [simulated] are the telegrams that the simulator emits
    inside [simulate()], [incoming] those that arrive while the program
    waits in [waitForStop()]. *)
Definition serve (sys : System) (simulated incoming : list Telegram)
  : Run System :=
  sys <- (if MBusDeviceType_eqb (fst (sys_device sys)) DEVICE_SIMULATOR
          then emit Simulate ;; deliver simulated sys
          else ret sys) ;;
  when (Configuration.daemon (sys_config sys))
       (notice "(wmbusmeters) waiting for telegrams\n" []) ;;
  emit WaitForStop ;;
  sys <- deliver incoming sys ;;
  when (Configuration.daemon (sys_config sys))
       (notice "(wmbusmeters) shutting down\n" []) ;;
  ret sys.

(** [startUsingCommandline], lines 126-321. *)
Definition startUsingCommandline (config : Configuration.t)
  (simulated incoming : list Telegram) : Run System :=
  sys <- startup config ;;
  serve sys simulated incoming.
End Program.

(** ** Reading a trace *)

(** The device kind that detection reported, if detection was reached. *)
Fixpoint detected (tr : list Event) : option MBusDeviceType :=
  match tr with
  | [] => None
  | DetectMBusDevice _ found _ :: _ => Some found
  | _ :: rest => detected rest
  end.

Definition is_Stop (e : Event) : bool :=
  match e with Stop => true | _ => false end.

Definition is_WaitForStop (e : Event) : bool :=
  match e with WaitForStop => true | _ => false end.

Definition is_CreateMeter (e : Event) : bool :=
  match e with CreateMeter _ _ _ _ => true | _ => false end.

Definition is_OnTelegram (e : Event) : bool :=
  match e with OnTelegram _ => true | _ => false end.

(** The link modes handed to [setLinkMode], in order. *)
Fixpoint linkModesSet (tr : list Event) : list LinkMode :=
  match tr with
  | [] => []
  | SetLinkMode lm :: rest => lm :: linkModesSet rest
  | _ :: rest => linkModesSet rest
  end.

(** The telegrams whose identification was printed, in order. *)
Fixpoint telegramsPrinted (tr : list Event) : list Telegram :=
  match tr with
  | [] => []
  | TelegramPrint t :: rest => t :: telegramsPrinted rest
  | _ :: rest => telegramsPrinted rest
  end.

(** The update callbacks handed to [onUpdate], in order. *)
Fixpoint callbacksRegistered (tr : list Event) : list UpdateCallback :=
  match tr with
  | [] => []
  | OnUpdate cb :: rest => cb :: callbacksRegistered rest
  | _ :: rest => callbacksRegistered rest
  end.

(** The last event of a trace. *)
Definition lastEvent (tr : list Event) : option Event :=
  match rev tr with
  | [] => None
  | e :: _ => Some e
  end.

(** Events that none of the readers above looks at: logging, settings and
    the construction of helper objects. *)
Definition quiet (e : Event) : bool :=
  match e with
  | Log _ _ _ | Printf _ _ | EnableLogfile _ _ | WarningSilenced _
  | VerboseEnabled _ | LogTelegramsEnabled _ | DebugEnabled _
  | CreateSerialCommunicationManager _ | OnExit | Sleep _ | NewPrinter _
  | PrintMeter _ | OpenDevice _ _ => true
  | _ => false
  end.

Definition is_Detect (e : Event) : bool :=
  match e with DetectMBusDevice _ _ _ => true | _ => false end.

Definition is_SetLinkMode (e : Event) : bool :=
  match e with SetLinkMode _ => true | _ => false end.

Definition is_TelegramPrint (e : Event) : bool :=
  match e with TelegramPrint _ => true | _ => false end.

Definition is_OnUpdate (e : Event) : bool :=
  match e with OnUpdate _ => true | _ => false end.

(** Events of the construction of the meters, lines 240-306. *)
Definition setup_event (e : Event) : bool :=
  quiet e || is_CreateMeter e || is_OnUpdate e || is_OnTelegram e.

(** Events of the handling of a telegram. *)
Definition dispatch_event (e : Event) : bool :=
  match e with
  | Log _ _ _ | OutputPrint _ _ | TelegramPrint _ | DecryptionFailed _ _
  | Stop => true
  | _ => false
  end.

Definition is_Simulate (e : Event) : bool :=
  match e with Simulate => true | _ => false end.

(** Events of lines 308-320. *)
Definition serve_event (e : Event) : bool :=
  dispatch_event e || is_Simulate e || is_WaitForStop e.

(** Events of lines 128-306. *)
Definition startup_event (e : Event) : bool :=
  setup_event e || is_Detect e || is_SetLinkMode e.

(** Whether every later meter asks for the link mode [lm]. *)
Definition agree {X : Externals} (lm : LinkMode) (ms : list MeterInfo.t) : bool :=
  forallb (fun m => LinkMode_eqb lm (toMeterLinkMode (MeterInfo.type m))) ms.

(** The meter instances after the handling of a telegram. *)
Definition routed {X : Externals} (t : Telegram) (meters : list Meter.t)
  : list Meter.t :=
  match route t meters with
  | Handled _ meters' => meters'
  | _ => meters
  end.

(** The manager that line 160 creates. *)
Definition manager0 (config : Configuration.t) : SerialCommunicationManager.t :=
  SerialCommunicationManager.mk (Configuration.exitafter config) true.

(** The first meter instance whose identification rule accepts [t]. *)
Definition first_match {X : Externals} (t : Telegram) (meters : list Meter.t)
  : option Meter.t :=
  find (fun m => matches (Meter.factory m) (Meter.id m) t) meters.

Definition stopped (manager : SerialCommunicationManager.t)
  : SerialCommunicationManager.t :=
  SerialCommunicationManager.mk
    (SerialCommunicationManager.exit_after manager) false.

(** What every meter of a started system looks like: the output-print
    callback first, the oneshot check second. *)
Definition wired (m : Meter.t) : Prop :=
  Meter.on_update m = [CbOutputPrint; CbOneshotCheck].

(** The set-up that telegram handling never touches. *)
Definition same_setup (a b : System) : Prop :=
  sys_config a = sys_config b /\ sys_device a = sys_device b /\
  sys_wmbus a = sys_wmbus b /\ sys_output a = sys_output b.

(** ** Sample inputs *)

Module Sample.
Definition hex_digit (n : N) : ascii :=
  nth (N.to_nat n)
      ["0"; "1"; "2"; "3"; "4"; "5"; "6"; "7"; "8"; "9";
       "A"; "B"; "C"; "D"; "E"; "F"]%char "0"%char.

Definition hex_byte (b : N) : string :=
  String (hex_digit (b / 16)) (String (hex_digit (b mod 16)) EmptyString).

(** The id of the A-field: four BCD bytes, little-endian, after L, C and
    the two bytes of M. *)
Definition telegram_id (t : Telegram) : string :=
  match raw t with
  | _ :: _ :: _ :: _ :: a :: b :: c :: d :: _ =>
      hex_byte d +++ hex_byte c +++ hex_byte b +++ hex_byte a
  | _ => EmptyString
  end.

Definition right_key : string := "00112233445566778899AABBCCDDEEFF".
Definition wrong_key : string := "10112233445566778899AABBCCDDEEFF".

Definition meter_type (type : string) : MeterType :=
  if String.eqb type "multical21" then MULTICAL21_METER
  else if String.eqb type "flowiq3100" then FLOWIQ3100_METER
  else if String.eqb type "multical302" then MULTICAL302_METER
  else if String.eqb type "omnipower" then OMNIPOWER_METER
  else if String.eqb type "supercom587" then SUPERCOM587_METER
  else if String.eqb type "iperl" then IPERL_METER
  else if String.eqb type "qcaloric" then QCALORIC_METER
  else if String.eqb type "apator162" then APATOR162_METER
  else UNKNOWN_METER.

Definition meter_link_mode (type : string) : LinkMode :=
  match meter_type type with
  | SUPERCOM587_METER | IPERL_METER | APATOR162_METER => T1
  | UNKNOWN_METER => ANY
  | _ => C1
  end.

Definition detect_device (device : string) : MBusDeviceType * string :=
  if String.eqb device "/dev/im871a" then (DEVICE_IM871A, device)
  else if String.eqb device "/dev/amb8465" then (DEVICE_AMB8465, device)
  else if String.eqb device "rtlwmbus" then (DEVICE_RTLWMBUS, device)
  else if String.eqb device "simulation.txt" then (DEVICE_SIMULATOR, device)
  else (DEVICE_UNKNOWN, EmptyString).

Definition externals : Externals := {|
  WMBUSMETERS_VERSION := "0.8.4";
  enableLogfile := fun file _ => negb (String.eqb file "/nonexistent/log");
  detectMBusDevice := detect_device;
  isFrequency := fun s => String.eqb s "868.95M";
  toMeterLinkMode := meter_link_mode;
  toMeterType := meter_type;
  linkModeName := fun lm =>
    match lm with C1 => "C1" | T1 => "T1" | N1 => "N1" | ANY => "any" end;
  getLinkMode := fun kind lm =>
    match kind with
    | DEVICE_RTLWMBUS | DEVICE_SIMULATOR => ANY
    | _ => lm
    end;
  printMeter := fun _ _ => ["METER_JSON={}"; "METER_TYPE=multical21"; "METER_ID"];
  matches := fun _ id t => String.eqb id (telegram_id t);
  decrypts := fun _ key _ => String.eqb key right_key
|}.

(** [wmbusmeters <device>] with nothing else on the command line. *)
Definition config (device : string) (meters : list MeterInfo.t)
  : Configuration.t :=
  Configuration.mk false false EmptyString false false false false 0%Z
    false EmptyString Overwrite device EmptyString meters false C1
    false false ";"%char [] false false.

Definition with_oneshot (c : Configuration.t) : Configuration.t :=
  Configuration.mk (Configuration.daemon c) (Configuration.use_logfile c)
    (Configuration.logfile c) (Configuration.silence c)
    (Configuration.verbose c) (Configuration.logtelegrams c)
    (Configuration.debug c) (Configuration.exitafter c)
    (Configuration.meterfiles c) (Configuration.meterfiles_dir c)
    (Configuration.meterfiles_action c) (Configuration.device c)
    (Configuration.device_extra c) (Configuration.meters c)
    (Configuration.link_mode_set c) (Configuration.link_mode c)
    (Configuration.json c) (Configuration.fields c)
    (Configuration.separator c) (Configuration.shells c)
    (Configuration.list_shell_envs c) true.


Definition kitchen : MeterInfo.t :=
  MeterInfo.mk "kitchen" "multical21" "78563412" right_key.
Definition bath : MeterInfo.t :=
  MeterInfo.mk "bath" "supercom587" "11223344" right_key.
Definition locked : MeterInfo.t :=
  MeterInfo.mk "locked" "multical21" "78563412" wrong_key.

(** Telegrams whose A-field carries the ids 78563412, 11223344 and
    99999999. *)
Definition t1 : Telegram :=
  mkTelegram [30; 68; 45; 44; 18; 52; 86; 120; 27; 22; 141; 32]%N.
Definition t2 : Telegram :=
  mkTelegram [30; 68; 45; 44; 68; 51; 34; 17; 27; 22; 141; 32]%N.
Definition t3 : Telegram :=
  mkTelegram [30; 68; 45; 44; 153; 153; 153; 153; 27; 22; 141; 32]%N.

Definition run (device : string) (meters : list MeterInfo.t)
  (incoming : list Telegram) : Run System :=
  @startUsingCommandline externals (config device meters) [] incoming.


(** What a run hands back, or [default] when it was cut short. *)
Definition result (r : Run System) (default : System) : System :=
  match outcome r with
  | Returned sys => sys
  | _ => default
  end.

Definition nothing : System :=
  mkSystem (config EmptyString []) (DEVICE_UNKNOWN, EmptyString)
    (SerialCommunicationManager.mk 0%Z false)
    (WMBus.mk DEVICE_UNKNOWN None [])
    (Printer.mk false false ";"%char false EmptyString false EmptyString []
                true)
    [].

(** Two meters on the RTL adapter, oneshot: after the start-up, and after
    the first telegram for the kitchen meter. *)
Definition oneshot_config : Configuration.t :=
  with_oneshot (config "rtlwmbus" [kitchen; bath]).
Definition started : System :=
  Eval vm_compute in result (@startup externals oneshot_config) nothing.
Definition after_t1 : System :=
  Eval vm_compute in result (@deliver externals [t1] started) nothing.

(** One meter with the wrong key on the RTL adapter, oneshot. *)
Definition locked_config : Configuration.t :=
  with_oneshot (config "rtlwmbus" [locked]).
Definition locked_started : System :=
  Eval vm_compute in result (@startup externals locked_config) nothing.
Definition locked_meter : Meter.t :=
  Meter.mk Multical21 "locked" "78563412" wrong_key 0%N
           [CbOutputPrint; CbOneshotCheck].
End Sample.

(** ** The rest of main.cc: main, writePid, startDaemon, startUsingConfigFiles *)

(** The fields of [Configuration] that only [main] reads, beside the ones
    that [startUsingCommandline] works with. *)
Module CommandLine.
Record t : Type := mk {
  need_help : bool;
  useconfig : bool;
  config_root : string;
  pid_file : string;
  config : Configuration.t
}.
End CommandLine.

(** [config->daemon = is_daemon;] *)
Definition with_daemon (c : Configuration.t) (is_daemon : bool)
  : Configuration.t :=
  Configuration.mk is_daemon (Configuration.use_logfile c)
    (Configuration.logfile c) (Configuration.silence c)
    (Configuration.verbose c) (Configuration.logtelegrams c)
    (Configuration.debug c) (Configuration.exitafter c)
    (Configuration.meterfiles c) (Configuration.meterfiles_dir c)
    (Configuration.meterfiles_action c) (Configuration.device c)
    (Configuration.device_extra c) (Configuration.meters c)
    (Configuration.link_mode_set c) (Configuration.link_mode c)
    (Configuration.json c) (Configuration.fields c)
    (Configuration.separator c) (Configuration.shells c)
    (Configuration.list_shell_envs c) (Configuration.oneshot c).

(** What the operating system answers to the calls of [startDaemon], as
    seen by one process. *)
Module Os.
Record t : Type := mk {
  (** whether the [fopen] of the pre-check succeeds *)
  fopen_check : bool;
  (** what [fork()] returns in this process *)
  fork : Z;
  (** whether the [fopen] of the parent succeeds *)
  fopen_store : bool;
  (** what [fprintf] returns in the parent *)
  fprintf : Z;
  (** what [setsid()] returns in the child *)
  setsid : Z;
  (** what [chdir] returns in the child *)
  chdir : Z
}.
End Os.

(** [loadConfiguration] of config.h. *)
Class ConfigFiles : Type := {
  loadConfiguration : string -> Configuration.t
}.

(** The calls of [main], [writePid] and [startDaemon], beside those of
    [startUsingCommandline]. *)
Inductive SysEvent : Type :=
| Core (e : Event)
| Puts (s : string)
| Setbuf
| Setlogmask
| Openlog (ident : string)
| EnableSyslog
| Fopen (path mode : string)
| Fprintf (fmt : string) (args : list Arg)
| Fclose
| Fork
| Umask (mask : Z)
| Setsid
| Chdir (path : string)
| Close (fd : Z)
| LoadConfiguration (root : string).

Record Proc (A : Type) : Type := mkProc {
  sysevents : list SysEvent;
  ending : Outcome A
}.
Arguments mkProc {A} sysevents ending.
Arguments sysevents {A} p.
Arguments ending {A} p.

Definition pret {A : Type} (a : A) : Proc A := mkProc [] (Returned a).

Definition pbind {A B : Type} (m : Proc A) (f : A -> Proc B) : Proc B :=
  match ending m with
  | Returned a => mkProc (sysevents m ++ sysevents (f a)) (ending (f a))
  | Exited c => mkProc (sysevents m) (Exited c)
  | Aborted => mkProc (sysevents m) Aborted
  end.

Declare Scope proc_scope.
Delimit Scope proc_scope with proc.
Notation "x <- m ;; k" := (pbind m (fun x => k))
  (at level 100, m at next level, right associativity) : proc_scope.
Notation "m ;; k" := (pbind m (fun _ => k))
  (at level 100, right associativity) : proc_scope.

(** A computation of [startUsingCommandline] inside the process. *)
Definition lift {A : Type} (r : Run A) : Proc A :=
  mkProc (map Core (events r)) (outcome r).

Definition sys (e : SysEvent) : Proc unit := mkProc [e] (Returned tt).

Definition pexit {A : Type} (code : Z) : Proc A := mkProc [] (Exited code).

Definition pwhen (b : bool) (m : Proc unit) : Proc unit :=
  if b then m else pret tt.


(** The events of [startUsingCommandline] in a process trace. *)
Fixpoint core (tr : list SysEvent) : list Event :=
  match tr with
  | [] => []
  | Core e :: rest => e :: core rest
  | _ :: rest => core rest
  end.

Definition is_Fork (e : SysEvent) : bool :=
  match e with Fork => true | _ => false end.

Definition is_Fprintf (e : SysEvent) : bool :=
  match e with Fprintf _ _ => true | _ => false end.

Definition is_LoadConfiguration (e : SysEvent) : bool :=
  match e with LoadConfiguration _ => true | _ => false end.

Definition is_Core (e : SysEvent) : bool :=
  match e with Core _ => true | _ => false end.

Definition is_OpenDevice (e : Event) : bool :=
  match e with OpenDevice _ _ => true | _ => false end.

Definition is_PrintMeter (e : Event) : bool :=
  match e with PrintMeter _ => true | _ => false end.

(** The arguments of the [printf("%s\n", key)] calls, in order. *)
Fixpoint keysPrinted (tr : list Event) : list string :=
  match tr with
  | [] => []
  | Printf "%s\n" [AStr key] :: rest => key :: keysPrinted rest
  | _ :: rest => keysPrinted rest
  end.

(** (name, id, key) of a configured meter and of a meter instance. *)
Definition quadruple (m : MeterInfo.t) : string * string * string :=
  (MeterInfo.name m, MeterInfo.id m, MeterInfo.key m).

Definition identity (m : Meter.t) : string * string * string :=
  (Meter.name m, Meter.id m, Meter.key m).

(** The raw string literal of lines 51-106. *)
Definition manual : string :=
"
Usage: wmbusmeters {options} <device> ( [meter_name] [meter_type] [meter_id] [meter_key] )*

As <options> you can use:

    --c1 or --t1 listen to C1 or T1 messages when no meters are supplied, not needed for rtlwmbus
    --debug for a lot of information
    --exitafter=<time> exit program after time, eg 20h, 10m 5s
    --format=<hr/json/fields> for human readable, json or semicolon separated fields
    --logfile=<file> use this file instead of stdout
    --logtelegrams log the contents of the telegrams for easy replay
    --meterfiles=<dir> store meter readings in dir
    --meterfilesaction=(overwrite|append) overwrite or append to the meter readings file
    --oneshot wait for an update from each meter, then quit
    --separator=<c> change field separator to c
    --shell=<cmdline> invokes cmdline with env variables containing the latest reading
    --shellenvs list the env variables available for the meter
    --useconfig=<dir> load config files from dir/etc
    --verbose for more information

As a <device> you can use:

" +++ dq +++ "/dev/ttyUSB" +++ dq +++ " to which a im871a/amb8465 dongle is attached,
or you can specify auto and wmbusmeters will look for a suitable dongle
on the device links /dev/im871a and /dev/amb8465.

" +++ dq +++ "rtlwmbus:868.95M" +++ dq +++ " to have wmbusmeters spawn:
" +++ dq +++ "rtl_sdr -f 868.95M -s 1600000 - 2>/dev/null | rtl_wmbus" +++ dq +++ "
(you might have to tweak 868.95M to nearby frequencies depending
on the rtl-sdr dongle you are using, also when run as a daemon,
it uses /usr/bin/rtl_sdr and /usr/bin/rtl_wmbus instead.)

" +++ dq +++ "rtlwmbus:<commandline>" +++ dq +++ " to have wmbusmeters spawn
that commandline instead, its output is expected to be like rtl_wmbus.

As meter quadruples you specify:
<meter_name> a mnemonic for this particular meter
<meter_type> one of the supported meters
<meter_id> an 8 digit mbus id, usually printed on the meter
<meter_key> an encryption key unique for the meter
    if the meter uses no encryption, then supply " +++ dq +++ dq +++ "

Supported water meters:
Kamstrup Multical 21 (multical21)
Kamstrup flowIQ 3100 (flowiq3100)
Sontex Supercom 587 (supercom587)
Sensus iPERL (iperl)

Supported heat cost allocator:
Qundis Q caloric (qcaloric)

Work in progress:
Water meter Apator at-wmbus-16-2 (apator162)
Heat meter Kamstrup Multical 302 (multical302)
Electricity meter Kamstrup Omnipower (omnipower)
".

Section MainProgram.
Context {X : Externals} {L : ConfigFiles}.
Local Open Scope proc_scope.

(** [error], [notice] and [warning] of util.h inside the process. *)
Definition perror {A : Type} (fmt : string) (args : list Arg) : Proc A :=
  lift (error fmt args).

Definition pnotice (fmt : string) (args : list Arg) : Proc unit :=
  lift (notice fmt args).

(** [writePid], lines 335-350. [opened] tells whether [fopen] gave a
    stream, [n] is what [fprintf] returns when it is called. *)
Definition writePid (pid_file : string) (pid : Z) (opened : bool) (n : Z)
  : Proc unit :=
  sys (Fopen pid_file "w") ;;
  pwhen (negb opened)
    (perror ("Could not open pid file " +++ dq +++ "%s" +++ dq
               +++ " for writing!\n")
            [AStr pid_file]) ;;
  pwhen (0 <? pid)%Z
    (sys (Fprintf "%d\n" [AInt pid]) ;;
     pwhen (n =? 0)%Z
       (perror ("Could not write pid (%d) to file " +++ dq +++ "%s" +++ dq
                  +++ "!\n")
               [AInt pid; AStr pid_file]) ;;
     pnotice "(wmbusmeters) started %s\n" [AStr pid_file]) ;;
  sys Fclose.

(** [startUsingConfigFiles], lines 396-402. *)
Definition startUsingConfigFiles (root : string) (is_daemon : bool)
  (simulated incoming : list Telegram) : Proc unit :=
  sys (LoadConfiguration root) ;;
  let config := with_daemon (loadConfiguration root) is_daemon in
  lift (startUsingCommandline config simulated incoming) ;;
  pret tt.

(** [startDaemon], lines 352-394. The pre-check calls [writePid] with pid
    0, which never reaches [fprintf]. *)
Definition startDaemon (pid_file : string) (os : Os.t)
  (simulated incoming : list Telegram) : Proc unit :=
  sys Setlogmask ;;
  sys (Openlog "wmbusmetersd") ;;
  sys EnableSyslog ;;
  writePid pid_file 0 (Os.fopen_check os) 0 ;;
  sys Fork ;;
  let pid := Os.fork os in
  pwhen (pid <? 0)%Z (perror "Could not fork.\n" []) ;;
  if (0 <? pid)%Z then
    writePid pid_file pid (Os.fopen_store os) (Os.fprintf os)
  else
    sys (Umask 0) ;;
    sys Setsid ;;
    let sid := Os.setsid os in
    pwhen (sid <? 0)%Z (pexit (-1)) ;;
    sys (Chdir "/") ;;
    pwhen (Os.chdir os <? 0)%Z
      (perror "Could not change to root as current working directory." []) ;;
    sys (Close 0) ;;
    sys (Close 1) ;;
    sys (Close 2) ;;
    startUsingConfigFiles EmptyString true simulated incoming.

(** [main], lines 45-124, from the parsed command line on. *)
Definition main (cmdline : CommandLine.t) (os : Os.t)
  (simulated incoming : list Telegram) : Proc unit :=
  if CommandLine.need_help cmdline then
    lift (emit (Printf ("wmbusmeters version: " +++ WMBUSMETERS_VERSION +++ "\n")
                       [])) ;;
    sys (Puts manual)
  else if Configuration.daemon (CommandLine.config cmdline) then
    startDaemon (CommandLine.pid_file cmdline) os simulated incoming ;;
    pexit 0
  else if CommandLine.useconfig cmdline then
    startUsingConfigFiles (CommandLine.config_root cmdline) false
                          simulated incoming ;;
    pexit 0
  else
    sys Setbuf ;;
    lift (startUsingCommandline (CommandLine.config cmdline)
                                simulated incoming) ;;
    pret tt.
End MainProgram.

(** Events of the start-up before [setLinkMode]. *)
Definition early_event (e : Event) : bool := quiet e || is_Detect e.

(** What the link-mode block may do to the configuration. *)
Definition same_but_link_mode (c c' : Configuration.t) : Prop :=
  c' = c \/ exists lm, c' = Configuration.with_link_mode c lm.


(** ** Further sample inputs *)

Module Scenario.
(** A configuration whose log file cannot be opened. *)
Definition no_logfile : Configuration.t :=
  Configuration.mk false true "/nonexistent/log" false false false false 0%Z
    false EmptyString Overwrite "rtlwmbus" EmptyString
    [Sample.kitchen] false C1 false false ";"%char [] false false.

(** The configuration files: the empty root, which the daemon loads, names
    the log file that cannot be opened. *)
Definition files : ConfigFiles := {|
  loadConfiguration := fun root =>
    if String.eqb root EmptyString then no_logfile
    else Sample.config "rtlwmbus" [Sample.kitchen]
|}.

(** fopen, fork, fopen, fprintf, setsid, chdir *)
Definition os_child : Os.t := Os.mk true 0 true 5 1 0.
Definition os_parent : Os.t := Os.mk true 4711 true (-1) 0 0.
Definition os_unwritable : Os.t := Os.mk false 4711 true 5 0 0.

(** --t1 with a C1 and a T1 meter on an im871a dongle. *)
Definition explicit_t1 : Configuration.t :=
  Configuration.mk false false EmptyString false false false false 0%Z
    false EmptyString Overwrite "/dev/im871a" EmptyString
    [Sample.kitchen; Sample.bath] true T1 false false ";"%char [] false false.

(** rtlwmbus with a command line of the user. *)
Definition own_command : Configuration.t :=
  Configuration.mk false false EmptyString false false false false 0%Z
    false EmptyString Overwrite "rtlwmbus" "my_receiver --pipe" [] false C1
    false false ";"%char [] false false.

Definition ghost : MeterInfo.t :=
  MeterInfo.mk "ghost" "nosuchmeter" "00000000" EmptyString.


(** Two command lines with --useconfig=/etc/one. *)
Definition use_config : CommandLine.t :=
  CommandLine.mk false true "/etc/one" "/run/pid" (Sample.config "nothing" []).
Definition use_config' : CommandLine.t :=
  CommandLine.mk false true "/etc/one" "/other/pid"
    (Sample.with_oneshot (Sample.config "/dev/im871a" [Sample.bath])).
End Scenario.

(** ** Laws of the monad of runs *)

Lemma bind_Returned {A B : Type} (m : Run A) (f : A -> Run B) (a : A) :
  outcome m = Returned a ->
  bind m f = mkRun (events m ++ events (f a)) (outcome (f a)).
Proof. intros H. unfold bind. rewrite H. reflexivity. Qed.

Lemma bind_Exited {A B : Type} (m : Run A) (f : A -> Run B) (c : Z) :
  outcome m = Exited c -> bind m f = mkRun (events m) (Exited c).
Proof. intros H. unfold bind. rewrite H. reflexivity. Qed.

Lemma bind_Aborted {A B : Type} (m : Run A) (f : A -> Run B) :
  outcome m = Aborted -> bind m f = mkRun (events m) Aborted.
Proof. intros H. unfold bind. rewrite H. reflexivity. Qed.

Lemma bind_returned_inv {A B : Type} (m : Run A) (f : A -> Run B) (b : B) :
  outcome (bind m f) = Returned b ->
  exists a, outcome m = Returned a /\ outcome (f a) = Returned b.
Proof.
  unfold bind. destruct (outcome m) as [a| |] eqn:E; simpl; try discriminate.
  intros H. exists a. split; [reflexivity | exact H].
Qed.

Lemma bind_assoc {A B C : Type} (m : Run A) (f : A -> Run B) (g : B -> Run C) :
  bind (bind m f) g = bind m (fun a => bind (f a) g).
Proof.
  unfold bind at 2 3. destruct (outcome m) as [a| |] eqn:E.
  - unfold bind; simpl. destruct (outcome (f a)); simpl;
      rewrite <- ?app_assoc; reflexivity.
  - reflexivity.
  - reflexivity.
Qed.

Lemma events_bind_prefix {A B : Type} (m : Run A) (f : A -> Run B) :
  exists tail, events (bind m f) = events m ++ tail.
Proof.
  unfold bind. destruct (outcome m); simpl.
  - eexists; reflexivity.
  - exists []. now rewrite app_nil_r.
  - exists []. now rewrite app_nil_r.
Qed.

(** A failed run stays failed, with the same trace, whatever follows. *)
Lemma bind_not_returned {A B : Type} (m : Run A) (f : A -> Run B) :
  returned m = false ->
  events (bind m f) = events m /\ returned (bind m f) = false.
Proof.
  unfold returned, bind. destruct (outcome m); simpl; intros H;
    try discriminate; split; reflexivity.
Qed.

(** ** Reading an appended trace *)

Lemma detected_app (a b : list Event) :
  detected (a ++ b) =
  match detected a with Some d => Some d | None => detected b end.
Proof.
  induction a as [|e a IH]; simpl; [reflexivity|].
  destruct e; auto.
Qed.

Lemma linkModesSet_app (a b : list Event) :
  linkModesSet (a ++ b) = linkModesSet a ++ linkModesSet b.
Proof.
  induction a as [|e a IH]; simpl; [reflexivity|].
  destruct e; simpl; rewrite ?IH; reflexivity.
Qed.

Lemma telegramsPrinted_app (a b : list Event) :
  telegramsPrinted (a ++ b) = telegramsPrinted a ++ telegramsPrinted b.
Proof.
  induction a as [|e a IH]; simpl; [reflexivity|].
  destruct e; simpl; rewrite ?IH; reflexivity.
Qed.

Lemma existsb_of_class (cls p : Event -> bool) (tr : list Event) :
  (forall e, cls e = true -> p e = false) ->
  forallb cls tr = true -> existsb p tr = false.
Proof.
  intros Hp. induction tr as [|e tr IH]; simpl; [reflexivity|].
  intros H. apply andb_true_iff in H. destruct H as [He Htr].
  rewrite (Hp e He), (IH Htr). reflexivity.
Qed.

Lemma forallb_weaken (p q : Event -> bool) (tr : list Event) :
  (forall e, p e = true -> q e = true) ->
  forallb p tr = true -> forallb q tr = true.
Proof.
  intros Hp. induction tr as [|e tr IH]; simpl; [reflexivity|].
  intros H. apply andb_true_iff in H. destruct H as [He Htr].
  rewrite (Hp e He), (IH Htr). reflexivity.
Qed.

Lemma detected_absent (tr : list Event) :
  existsb is_Detect tr = false -> detected tr = None.
Proof.
  induction tr as [|e tr IH]; simpl; [reflexivity|].
  destruct e; simpl; intros H; try discriminate; auto.
Qed.

Lemma linkModesSet_absent (tr : list Event) :
  existsb is_SetLinkMode tr = false -> linkModesSet tr = [].
Proof.
  induction tr as [|e tr IH]; simpl; [reflexivity|].
  destruct e; simpl; intros H; try discriminate; auto.
Qed.

Lemma telegramsPrinted_absent (tr : list Event) :
  existsb is_TelegramPrint tr = false -> telegramsPrinted tr = [].
Proof.
  induction tr as [|e tr IH]; simpl; [reflexivity|].
  destruct e; simpl; intros H; try discriminate; auto.
Qed.

Lemma In_existsb_false (p : Event -> bool) (e : Event) (tr : list Event) :
  existsb p tr = false -> p e = true -> ~ In e tr.
Proof.
  intros H He Hin.
  assert (existsb p tr = true) by (apply existsb_exists; eauto).
  congruence.
Qed.

Lemma quiet_setup e : quiet e = true -> setup_event e = true.
Proof. unfold setup_event. intros ->. reflexivity. Qed.

(** ** The oneshot check *)

Lemma all_updated_Forall (meters : list Meter.t) :
  all_updated meters = true <->
  Forall (fun m => (1 <= Meter.numUpdates m)%N) meters.
Proof.
  induction meters as [|m rest IH]; simpl.
  - split; [constructor | reflexivity].
  - destruct (N.eqb_spec (Meter.numUpdates m) 0) as [E|E].
    + split; [discriminate|]. intros H. inversion H; subst. lia.
    + rewrite IH. split.
      * intros H. constructor; [lia | exact H].
      * intros H. inversion H; assumption.
Qed.

Lemma oneshotCheck_returns config manager t meter meters :
  exists manager',
    outcome (oneshotCheck config manager t meter meters) = Returned manager'.
Proof.
  unfold oneshotCheck.
  destruct (Configuration.oneshot config), (all_updated meters); simpl;
    eexists; reflexivity.
Qed.

Lemma oneshotCheck_events config manager t meter meters :
  events (oneshotCheck config manager t meter meters) =
  if Configuration.oneshot config && all_updated meters
  then [Log LVerbose
            "(main) all meters have received at least one update, stopping.\n" [];
        Stop]
  else [].
Proof.
  unfold oneshotCheck.
  destruct (Configuration.oneshot config), (all_updated meters); reflexivity.
Qed.

Lemma oneshotCheck_run config manager t meter meters :
  oneshotCheck config manager t meter meters =
  if Configuration.oneshot config && all_updated meters
  then mkRun [Log LVerbose
                "(main) all meters have received at least one update, stopping.\n" [];
              Stop]
             (Returned (stopped manager))
  else ret manager.
Proof.
  unfold oneshotCheck.
  destruct (Configuration.oneshot config), (all_updated meters); reflexivity.
Qed.

(** C1. For every configuration, manager, telegram, meter and meter vector,
    [oneshotCheck] returns, and it calls [stop()] on the manager if and only
    if the oneshot flag is on and every meter of the vector has an update
    count of at least one. When it stops, the manager is no longer running;
    when the flag is off or some meter still has update count zero, the
    manager is handed back untouched and nothing is logged. *)
Theorem oneshotCheck_stop_iff (config : Configuration.t)
  (manager : SerialCommunicationManager.t) (t : Telegram) (meter : Meter.t)
  (meters : list Meter.t) :
  (In Stop (events (oneshotCheck config manager t meter meters)) <->
   Configuration.oneshot config = true /\
   Forall (fun m => (1 <= Meter.numUpdates m)%N) meters)
  /\ oneshotCheck config manager t meter meters =
     if Configuration.oneshot config && all_updated meters
     then mkRun [Log LVerbose
                   "(main) all meters have received at least one update, stopping.\n" [];
                 Stop]
                (Returned (SerialCommunicationManager.mk
                             (SerialCommunicationManager.exit_after manager)
                             false))
     else ret manager.
Proof.
  rewrite <- all_updated_Forall, oneshotCheck_events.
  unfold oneshotCheck.
  destruct (Configuration.oneshot config), (all_updated meters); simpl;
    repeat split; try tauto; try congruence; intros; intuition congruence.
Qed.

(** ** The blocks of the start-up sequence *)

Lemma bind_ret_l {A B : Type} (a : A) (f : A -> Run B) : bind (ret a) f = f a.
Proof. unfold bind; simpl. destruct (f a); reflexivity. Qed.

Lemma when_false (m : Run unit) : when false m = ret tt.
Proof. reflexivity. Qed.

Section Blocks.
Context {X : Externals}.

Lemma openLogfile_quiet config :
  forallb quiet (events (openLogfile config)) = true.
Proof.
  unfold openLogfile.
  destruct (Configuration.use_logfile config); simpl; [|reflexivity].
  destruct (enableLogfile _ _); simpl; [reflexivity|].
  destruct (Configuration.daemon config); reflexivity.
Qed.

Lemma openLogfile_outcome config :
  outcome (openLogfile config) =
  if Configuration.use_logfile config
     && negb (enableLogfile (Configuration.logfile config)
                            (Configuration.daemon config))
     && negb (Configuration.daemon config)
  then Aborted else Returned tt.
Proof.
  unfold openLogfile.
  destruct (Configuration.use_logfile config); simpl; [|reflexivity].
  destruct (enableLogfile _ _); simpl; [reflexivity|].
  destruct (Configuration.daemon config); reflexivity.
Qed.

Lemma announce_quiet config :
  forallb quiet (events (announce config)) = true.
Proof.
  unfold announce.
  destruct (negb _), (Configuration.meterfiles config), (_ <? _)%nat;
    reflexivity.
Qed.

Lemma announce_outcome config : outcome (announce config) = Returned tt.
Proof.
  unfold announce.
  destruct (negb _), (Configuration.meterfiles config), (_ <? _)%nat;
    reflexivity.
Qed.

Lemma openDevice_quiet config td :
  forallb quiet (events (openDevice config td)) = true.
Proof.
  unfold openDevice.
  destruct (fst td); simpl; try reflexivity.
  destruct (Configuration.daemon config); reflexivity.
Qed.

Lemma openDevice_known config td :
  fst td <> DEVICE_UNKNOWN ->
  outcome (openDevice config td) = Returned (WMBus.mk (fst td) None []).
Proof.
  unfold openDevice. destruct (fst td); simpl; congruence.
Qed.

Lemma openDevice_unknown config td :
  fst td = DEVICE_UNKNOWN ->
  openDevice config td =
  mkRun (Log LWarning "No wmbus device found! Exiting!\n" []
           :: if Configuration.daemon config then [Sleep 1] else [])
        (Exited 1).
Proof.
  unfold openDevice. intros ->.
  destruct (Configuration.daemon config); reflexivity.
Qed.

(** Once the link mode is set, the loop only compares: it leaves the
    configuration alone, and stops at the first meter that disagrees
    unless the device is the RTL adapter. *)
Lemma examineMeters_set kind ms config :
  Configuration.link_mode_set config = true ->
  examineMeters kind ms config =
  if agree (Configuration.link_mode config) ms
     || MBusDeviceType_eqb kind DEVICE_RTLWMBUS
  then ret config
  else error "A different link mode has been set already.\n" [].
Proof.
  intros Hset. induction ms as [|m rest IH]; simpl; [reflexivity|].
  rewrite Hset; simpl.
  destruct (LinkMode_eqb _ _); simpl.
  - rewrite bind_ret_l. exact IH.
  - destruct (MBusDeviceType_eqb kind DEVICE_RTLWMBUS); simpl.
    + rewrite bind_ret_l, IH. rewrite orb_true_r. reflexivity.
    + reflexivity.
Qed.

(** The three ways through lines 210-229. *)
Lemma chooseLinkMode_set kind config :
  Configuration.link_mode_set config = true ->
  chooseLinkMode kind config = ret config.
Proof.
  intros H. unfold chooseLinkMode. rewrite H; simpl.
  rewrite bind_ret_l, H. reflexivity.
Qed.

Lemma chooseLinkMode_no_meters kind config :
  Configuration.link_mode_set config = false ->
  Configuration.meters config = [] ->
  chooseLinkMode kind config =
  if MBusDeviceType_eqb kind DEVICE_RTLWMBUS
     || MBusDeviceType_eqb kind DEVICE_SIMULATOR
  then ret config
  else error "If you specify no meters, you have to specify the link mode: --c1 or --t1\n" [].
Proof.
  intros H Hm. unfold chooseLinkMode. rewrite H, Hm; simpl.
  rewrite bind_ret_l, H; simpl.
  destruct kind; reflexivity.
Qed.

Lemma chooseLinkMode_meters kind config m rest :
  Configuration.link_mode_set config = false ->
  Configuration.meters config = m :: rest ->
  chooseLinkMode kind config =
  if agree (toMeterLinkMode (MeterInfo.type m)) rest
     || MBusDeviceType_eqb kind DEVICE_RTLWMBUS
  then ret (Configuration.with_link_mode config
              (toMeterLinkMode (MeterInfo.type m)))
  else error "A different link mode has been set already.\n" [].
Proof.
  intros H Hm. unfold chooseLinkMode. rewrite H, Hm; simpl.
  rewrite H; simpl.
  rewrite examineMeters_set by reflexivity. simpl.
  destruct (agree _ rest || _); reflexivity.
Qed.

Lemma chooseLinkMode_quiet kind config :
  forallb quiet (events (chooseLinkMode kind config)) = true.
Proof.
  destruct (Configuration.link_mode_set config) eqn:H.
  - rewrite chooseLinkMode_set by assumption. reflexivity.
  - destruct (Configuration.meters config) as [|m rest] eqn:Hm.
    + rewrite chooseLinkMode_no_meters by assumption.
      destruct (_ || _); reflexivity.
    + rewrite (chooseLinkMode_meters _ _ m rest) by assumption.
      destruct (_ || _); reflexivity.
Qed.
End Blocks.

(** ** Construction of the meters *)

Lemma update_back_snoc (f : Meter.t -> Meter.t) (meters : list Meter.t)
  (m : Meter.t) :
  update_back f (meters ++ [m]) = meters ++ [f m].
Proof.
  induction meters as [|a rest IH]; simpl; [reflexivity|].
  rewrite IH. destruct rest; reflexivity.
Qed.

Lemma back_snoc (meters : list Meter.t) (m : Meter.t) :
  back (meters ++ [m]) = Some m.
Proof.
  induction meters as [|a rest IH]; simpl; [reflexivity|].
  rewrite IH. destruct rest; reflexivity.
Qed.

Section Construction.
Context {X : Externals}.

(** The switch either aborts on an unknown type or pushes one fresh
    instance built by a factory. *)
Lemma constructMeter_cases m meters :
  (toMeterType (MeterInfo.type m) = UNKNOWN_METER /\
   constructMeter m meters =
   error ("No such meter type " +++ dq +++ "%s" +++ dq +++ "\n")
         [AStr (MeterInfo.type m)])
  \/
  (toMeterType (MeterInfo.type m) <> UNKNOWN_METER /\
   exists f fmt,
     constructMeter m meters =
     mkRun [CreateMeter f (MeterInfo.name m) (MeterInfo.id m) (MeterInfo.key m);
            Log LVerbose fmt
                [AStr (MeterInfo.name m); AStr (MeterInfo.id m);
                 AStr (keymsg (MeterInfo.key m))]]
           (Returned (meters ++ [Meter.mk f (MeterInfo.name m) (MeterInfo.id m)
                                          (MeterInfo.key m) 0%N []]))).
Proof.
  unfold constructMeter.
  destruct (toMeterType (MeterInfo.type m));
    try (right; split; [discriminate|]; do 2 eexists; reflexivity).
  left. split; reflexivity.
Qed.

Lemma listShellEnvs_spec config m meters :
  forallb quiet (events (listShellEnvs config m meters)) = true /\
  outcome (listShellEnvs config m meters) = Exited 0.
Proof.
  unfold listShellEnvs. destruct (back meters) as [meter|]; [|split; reflexivity].
  assert (H : forall envs, forallb quiet (events (printEnvs envs)) = true /\
                           outcome (printEnvs envs) = Returned tt).
  { induction envs as [|e rest [IH1 IH2]]; simpl; [split; reflexivity|].
    unfold bind; simpl. rewrite IH2; simpl. split; [exact IH1|reflexivity]. }
  destruct (H (printMeter meter (Configuration.separator config))) as [H1 H2].
  unfold bind; simpl. rewrite H2; simpl.
  rewrite forallb_app, H1. split; reflexivity.
Qed.

Lemma configureMeters_events config ms meters :
  forallb setup_event (events (configureMeters config ms meters)) = true.
Proof.
  revert meters. induction ms as [|m rest IH]; intros meters; simpl;
    [reflexivity|].
  destruct (constructMeter_cases m meters) as [[_ E]|[_ (f & fmt & E)]];
    rewrite E; [reflexivity|].
  unfold bind at 1; simpl.
  destruct (Configuration.list_shell_envs config); simpl.
  - destruct (listShellEnvs_spec config m
                (meters ++ [Meter.mk f (MeterInfo.name m) (MeterInfo.id m)
                                     (MeterInfo.key m) 0%N []])) as [Q O].
    unfold bind at 1. rewrite O; simpl.
    apply (forallb_weaken quiet); [apply quiet_setup | exact Q].
  - apply IH.
Qed.

(** When the loop returns, it has appended one wired instance per
    configured meter, and left the earlier instances alone. *)
Lemma configureMeters_wired config ms meters meters' :
  outcome (configureMeters config ms meters) = Returned meters' ->
  Forall wired meters -> Forall wired meters'.
Proof.
  revert meters. induction ms as [|m rest IH]; intros meters; simpl.
  - intros H; inversion H; subst; auto.
  - destruct (constructMeter_cases m meters) as [[_ E]|[_ (f & fmt & E)]];
      rewrite E; [discriminate|].
    unfold bind at 1; simpl.
    destruct (Configuration.list_shell_envs config); simpl.
    + destruct (listShellEnvs_spec config m
                  (meters ++ [Meter.mk f (MeterInfo.name m) (MeterInfo.id m)
                                       (MeterInfo.key m) 0%N []])) as [Q O].
      unfold bind at 1. rewrite O; simpl. discriminate.
    + rewrite !update_back_snoc. intros H W.
      apply (IH _ H). apply Forall_app. split; [exact W|].
      constructor; [reflexivity|constructor].
Qed.


(** An unknown meter type is fatal. *)
Lemma configureMeters_unknown config ms meters :
  Exists (fun m => toMeterType (MeterInfo.type m) = UNKNOWN_METER) ms ->
  returned (configureMeters config ms meters) = false.
Proof.
  intros E. revert meters. induction E as [m rest U|m rest _ IH];
    intros meters; simpl.
  - destruct (constructMeter_cases m meters) as [[_ E]|[K _]];
      [|contradiction].
    rewrite E. reflexivity.
  - destruct (constructMeter_cases m meters) as [[_ E]|[_ (f & fmt & E)]];
      rewrite E; [reflexivity|].
    unfold bind at 1; simpl.
    destruct (Configuration.list_shell_envs config); simpl.
    + destruct (listShellEnvs_spec config m
                  (meters ++ [Meter.mk f (MeterInfo.name m) (MeterInfo.id m)
                                       (MeterInfo.key m) 0%N []])) as [Q O].
      unfold returned; simpl. rewrite (bind_Exited _ _ _ O). reflexivity.
    + unfold returned in *; simpl. apply IH.
Qed.

Lemma setupMeters_events config wmbus :
  forallb setup_event (events (setupMeters config wmbus)) = true.
Proof.
  unfold setupMeters. destruct (_ <? _)%nat; [|reflexivity].
  pose proof (configureMeters_events config (Configuration.meters config) [])
    as H.
  unfold bind. destruct (outcome (configureMeters _ _ _)); simpl;
    rewrite ?app_nil_r; exact H.
Qed.

Lemma setupMeters_no_meters config wmbus :
  Configuration.meters config = [] ->
  setupMeters config wmbus =
  mkRun [Log LNotice
           "No meters configured. Printing id:s of all telegrams heard!\n\n" [];
         OnTelegram CbTelegramPrint]
        (Returned (WMBus.mk (WMBus.kind wmbus) (WMBus.link_mode wmbus)
                     (WMBus.telegram_listeners wmbus ++ [CbTelegramPrint]),
                   [])).
Proof. intros H. unfold setupMeters. rewrite H. reflexivity. Qed.

Lemma setupMeters_wired config wmbus wm :
  outcome (setupMeters config wmbus) = Returned wm -> Forall wired (snd wm).
Proof.
  unfold setupMeters. destruct (_ <? _)%nat.
  - intros H. apply bind_returned_inv in H. destruct H as (meters & H1 & H2).
    inversion H2; subst; simpl.
    apply (configureMeters_wired _ _ _ _ H1). constructor.
  - simpl. intros H. inversion H; subst. constructor.
Qed.
End Construction.

(** ** Telegram dispatch *)

Section Dispatch.
Context {X : Externals}.

Lemma route_Handled_wired t meters meter meters' :
  route t meters = Handled meter meters' ->
  Forall wired meters -> wired meter /\ Forall wired meters'.
Proof.
  revert meter meters'. induction meters as [|m rest IH]; simpl;
    intros meter meters'; [discriminate|].
  intros H W. inversion W as [|? ? Wm Wrest]; subst.
  destruct (matches _ _ t).
  - destruct (decrypts _ _ t); inversion H; subst.
    split; [exact Wm | constructor; assumption].
  - destruct (route t rest) as [| |m' rest'] eqn:R; inversion H; subst.
    destruct (IH _ _ eq_refl Wrest) as [W1 W2].
    split; [exact W1 | constructor; assumption].
Qed.

(** A telegram whose first matching meter cannot decrypt it is dropped. *)
Lemma route_Dropped t meters meter :
  first_match t meters = Some meter ->
  decrypts (Meter.factory meter) (Meter.key meter) t = false ->
  route t meters = Dropped meter.
Proof.
  unfold first_match. induction meters as [|m rest IH]; simpl;
    [discriminate|].
  destruct (matches _ _ t).
  - intros H D. inversion H; subst. rewrite D. reflexivity.
  - intros H D. rewrite (IH H D). reflexivity.
Qed.

Lemma route_no_meters t : route t [] = NoMatch.
Proof. reflexivity. Qed.

(** The two callbacks of a wired meter: the reading is printed, then the
    oneshot check runs against the updated meter vector. *)
Lemma invokeUpdates_wired t meter sys :
  wired meter ->
  invokeUpdates (Meter.on_update meter) t meter sys =
  mkRun (OutputPrint t (Meter.name meter)
           :: events (oneshotCheck (sys_config sys) (sys_manager sys) t meter
                                   (sys_meters sys)))
        (Returned
           (with_manager sys
              (if Configuration.oneshot (sys_config sys)
                  && all_updated (sys_meters sys)
               then stopped (sys_manager sys)
               else sys_manager sys))).
Proof.
  intros W. rewrite W. simpl. unfold bind; simpl.
  rewrite oneshotCheck_run.
  destruct (Configuration.oneshot (sys_config sys) && all_updated (sys_meters sys));
    reflexivity.
Qed.

Lemma same_setup_refl a : same_setup a a.
Proof. repeat split. Qed.

Lemma same_setup_trans a b c :
  same_setup a b -> same_setup b c -> same_setup a c.
Proof. unfold same_setup. intuition congruence. Qed.

Lemma invokeListeners_spec cbs t :
  invokeListeners cbs t =
  mkRun (map (fun _ => TelegramPrint t) cbs) (Returned tt).
Proof.
  induction cbs as [|cb rest IH]; simpl; [reflexivity|].
  destruct cb; simpl. unfold bind; simpl. rewrite IH. reflexivity.
Qed.

(** Handling one telegram always returns; it keeps the set-up and the
    wiring of the meters, and emits only dispatch events. *)
Lemma handleTelegram_spec t sys :
  Forall wired (sys_meters sys) ->
  exists sys',
    outcome (handleTelegram t sys) = Returned sys' /\
    same_setup sys sys' /\
    Forall wired (sys_meters sys') /\
    forallb dispatch_event (events (handleTelegram t sys)) = true.
Proof.
  intros W. unfold handleTelegram.
  destruct (route t (sys_meters sys)) as [|meter|meter meters] eqn:R.
  - rewrite invokeListeners_spec. unfold bind; simpl.
    exists sys. repeat split; auto.
    rewrite app_nil_r. induction (WMBus.telegram_listeners _); simpl; auto.
  - exists sys. simpl. repeat split; auto.
  - destruct (route_Handled_wired _ _ _ _ R W) as [Wm Wms].
    rewrite (invokeUpdates_wired _ _ _ Wm). simpl.
    eexists. split; [reflexivity|]. repeat split; auto.
    rewrite oneshotCheck_events.
    destruct (_ && _); reflexivity.
Qed.

Lemma deliver_spec ts sys :
  Forall wired (sys_meters sys) ->
  exists sys',
    outcome (deliver ts sys) = Returned sys' /\
    same_setup sys sys' /\
    Forall wired (sys_meters sys') /\
    forallb dispatch_event (events (deliver ts sys)) = true.
Proof.
  revert sys. induction ts as [|t rest IH]; intros sys W; simpl.
  - exists sys. repeat split; auto.
  - destruct (SerialCommunicationManager.running (sys_manager sys)).
    + destruct (handleTelegram_spec t sys W) as (sys1 & O1 & S1 & W1 & D1).
      destruct (IH sys1 W1) as (sys2 & O2 & S2 & W2 & D2).
      rewrite (bind_Returned _ _ _ O1); simpl.
      exists sys2. split; [exact O2|].
      split; [eapply same_setup_trans; eauto|].
      split; [exact W2|].
      rewrite forallb_app, D1, D2. reflexivity.
    + exists sys. repeat split; auto.
Qed.

(** Discovery mode: with no meter and the print listener alone, every
    delivered telegram is printed, in order, and nothing stops the loop. *)
Lemma deliver_discovery ts sys :
  sys_meters sys = [] ->
  WMBus.telegram_listeners (sys_wmbus sys) = [CbTelegramPrint] ->
  SerialCommunicationManager.running (sys_manager sys) = true ->
  deliver ts sys = mkRun (map TelegramPrint ts) (Returned sys).
Proof.
  intros M L R. induction ts as [|t rest IH]; simpl; [reflexivity|].
  rewrite R. unfold handleTelegram. rewrite M, L; simpl.
  unfold bind at 1; simpl. rewrite IH. reflexivity.
Qed.
End Dispatch.

(** ** The start-up sequence as a whole *)

Section Startup.
Context {X : Externals}.

(** Either the log file cannot be opened, which is fatal outside daemon
    mode, or detection is reached after a quiet prelude. *)
Lemma startup_split config :
  (outcome (openLogfile config) = Aborted /\
   startup config = mkRun (events (openLogfile config)) Aborted)
  \/
  (outcome (openLogfile config) = Returned tt /\
   exists pre,
     forallb quiet pre = true /\
     startup config =
     mkRun (pre ++
            DetectMBusDevice (Configuration.device config)
              (fst (detectMBusDevice (Configuration.device config)))
              (snd (detectMBusDevice (Configuration.device config)))
            :: events (configure config (manager0 config)
                         (detectMBusDevice (Configuration.device config))))
          (outcome (configure config (manager0 config)
                      (detectMBusDevice (Configuration.device config))))).
Proof.
  unfold startup.
  pose proof (openLogfile_outcome config) as O.
  destruct (_ && _ && _) in O.
  - left. split; [exact O|]. apply bind_Aborted. exact O.
  - right. split; [exact O|].
    exists (events (openLogfile config) ++ events (announce config)
            ++ [CreateSerialCommunicationManager (Configuration.exitafter config);
                OnExit]).
    split.
    + rewrite !forallb_app, openLogfile_quiet, announce_quiet. reflexivity.
    + rewrite (bind_Returned _ _ _ O).
      rewrite (bind_Returned _ _ _ (announce_outcome config)).
      cbn -[openLogfile announce configure].
      rewrite <- !app_assoc. reflexivity.
Qed.

Lemma configure_unknown config manager td :
  fst td = DEVICE_UNKNOWN ->
  configure config manager td =
  mkRun (Log LWarning "No wmbus device found! Exiting!\n" []
           :: if Configuration.daemon config then [Sleep 1] else [])
        (Exited 1).
Proof.
  intros U. unfold configure. rewrite (openDevice_unknown _ _ U).
  reflexivity.
Qed.

Lemma configure_link_error config manager td fmt :
  fst td <> DEVICE_UNKNOWN ->
  chooseLinkMode (fst td) config = error fmt [] ->
  configure config manager td =
  mkRun (events (openDevice config td) ++ [Log LError fmt []]) Aborted.
Proof.
  intros K E. unfold configure.
  rewrite (bind_Returned _ _ _ (openDevice_known _ _ K)).
  rewrite E. reflexivity.
Qed.

Lemma configure_link_ok config manager td config' :
  fst td <> DEVICE_UNKNOWN ->
  chooseLinkMode (fst td) config = ret config' ->
  exists mid wmbus output,
    forallb quiet mid = true /\
    WMBus.telegram_listeners wmbus = [] /\
    configure config manager td =
    bind (mkRun (events (openDevice config td)
                 ++ SetLinkMode (Configuration.link_mode config') :: mid)
                (Returned tt))
         (fun _ => wm <- setupMeters config' wmbus ;;
                   ret (mkSystem config' td manager (fst wm) output (snd wm))).
Proof.
  intros K E. unfold configure.
  rewrite (bind_Returned _ _ _ (openDevice_known _ _ K)).
  rewrite E. simpl.
  exists [Log LVerbose "(config) using link mode: %s\n"
              [AStr (linkModeName
                       (getLinkMode (fst td) (Configuration.link_mode config')))];
          NewPrinter (printerArguments config')],
         (WMBus.mk (fst td) (Some (Configuration.link_mode config')) []),
         (printerArguments config').
  split; [reflexivity|]. split; [reflexivity|].
  cbn -[openDevice setupMeters].
  destruct (setupMeters _ _) as [ev [wm| |]]; unfold bind; simpl;
    rewrite <- ?app_assoc; simpl; reflexivity.
Qed.

(** After a successful start-up the meters are wired, the manager runs
    and the device kind is the detected one. *)
Lemma startup_Returned config sys :
  outcome (startup config) = Returned sys ->
  Forall wired (sys_meters sys) /\
  SerialCommunicationManager.running (sys_manager sys) = true /\
  sys_device sys = detectMBusDevice (Configuration.device config) /\
  fst (sys_device sys) <> DEVICE_UNKNOWN.
Proof.
  intros H.
  destruct (startup_split config) as [[_ E]|[_ (pre & _ & E)]];
    rewrite E in H; simpl in H; [discriminate|].
  unfold configure in H.
  apply bind_returned_inv in H. destruct H as (wmbus & Hopen & H).
  apply bind_returned_inv in H. destruct H as (config' & _ & H).
  apply bind_returned_inv in H. destruct H as (wmbus' & _ & H).
  apply bind_returned_inv in H. destruct H as (output & _ & H).
  apply bind_returned_inv in H. destruct H as (wm & Hsetup & H).
  inversion H; subst; simpl.
  split; [eapply setupMeters_wired; eauto|].
  split; [reflexivity|]. split; [reflexivity|].
  intros U. rewrite (openDevice_unknown _ _ U) in Hopen. discriminate.
Qed.

(** Lines 308-320 always return, and enter the event loop. *)
Lemma serve_spec sys simulated incoming :
  Forall wired (sys_meters sys) ->
  exists sys',
    outcome (serve sys simulated incoming) = Returned sys' /\
    forallb serve_event (events (serve sys simulated incoming)) = true /\
    existsb is_WaitForStop (events (serve sys simulated incoming)) = true.
Proof.
  intros W. unfold serve.
  assert (S : exists sys1 ev,
             (if MBusDeviceType_eqb (fst (sys_device sys)) DEVICE_SIMULATOR
              then emit Simulate ;; deliver simulated sys
              else ret sys) = mkRun ev (Returned sys1) /\
             forallb serve_event ev = true /\
             Forall wired (sys_meters sys1)).
  { destruct (MBusDeviceType_eqb _ _).
    - destruct (deliver_spec simulated sys W) as (sys1 & O & _ & W1 & D).
      exists sys1, (Simulate :: events (deliver simulated sys)).
      unfold bind; simpl. rewrite O. repeat split; auto.
      simpl. apply (forallb_weaken dispatch_event); [|exact D].
      intros e He. unfold serve_event. rewrite He. reflexivity.
    - exists sys, []. repeat split; auto. }
  destruct S as (sys1 & ev & -> & Hev & W1).
  destruct (deliver_spec incoming sys1 W1) as (sys2 & O & _ & W2 & D).
  assert (D' : forallb serve_event (events (deliver incoming sys1)) = true).
  { apply (forallb_weaken dispatch_event); [|exact D].
    intros e He. unfold serve_event. rewrite He. reflexivity. }
  unfold bind at 1; simpl.
  exists sys2.
  destruct (Configuration.daemon (sys_config sys1)); simpl;
    unfold bind; simpl; rewrite O; simpl;
    destruct (Configuration.daemon (sys_config sys2)); simpl;
    rewrite ?app_nil_r, ?forallb_app, ?existsb_app; simpl;
    rewrite ?forallb_app, ?Hev, ?D'; simpl;
    repeat split; auto using orb_true_r.
Qed.
End Startup.

(** ** Runs of the whole program *)

Lemma lastEvent_snoc (tr : list Event) (e : Event) :
  lastEvent (tr ++ [e]) = Some e.
Proof. unfold lastEvent. rewrite rev_app_distr. reflexivity. Qed.

Lemma startup_not_WaitForStop e : startup_event e = true -> is_WaitForStop e = false.
Proof. destruct e; cbv; congruence. Qed.

Lemma startup_not_Stop e : startup_event e = true -> is_Stop e = false.
Proof. destruct e; cbv; congruence. Qed.

Lemma startup_not_TelegramPrint e :
  startup_event e = true -> is_TelegramPrint e = false.
Proof. destruct e; cbv; congruence. Qed.

Lemma quiet_startup e : quiet e = true -> startup_event e = true.
Proof. unfold startup_event, setup_event. intros ->. reflexivity. Qed.

Lemma setup_startup e : setup_event e = true -> startup_event e = true.
Proof. unfold startup_event. intros ->. reflexivity. Qed.

Lemma quiet_not_Detect e : quiet e = true -> is_Detect e = false.
Proof. destruct e; cbv; congruence. Qed.

Lemma quiet_not_SetLinkMode e : quiet e = true -> is_SetLinkMode e = false.
Proof. destruct e; cbv; congruence. Qed.

Lemma quiet_not_CreateMeter e : quiet e = true -> is_CreateMeter e = false.
Proof. destruct e; cbv; congruence. Qed.

Lemma quiet_not_OnTelegram e : quiet e = true -> is_OnTelegram e = false.
Proof. destruct e; cbv; congruence. Qed.

Lemma quiet_not_WaitForStop e : quiet e = true -> is_WaitForStop e = false.
Proof. destruct e; cbv; congruence. Qed.

Lemma setup_not_SetLinkMode e : setup_event e = true -> is_SetLinkMode e = false.
Proof. destruct e; cbv; congruence. Qed.

Lemma serve_not_SetLinkMode e : serve_event e = true -> is_SetLinkMode e = false.
Proof. destruct e; cbv; congruence. Qed.

Lemma serve_not_Detect e : serve_event e = true -> is_Detect e = false.
Proof. destruct e; cbv; congruence. Qed.

Lemma serve_not_OnTelegram e : serve_event e = true -> is_OnTelegram e = false.
Proof. destruct e; cbv; congruence. Qed.

Section Runs.
Context {X : Externals}.

Lemma chooseLinkMode_cases kind config :
  (exists config', chooseLinkMode kind config = ret config') \/
  (exists fmt, chooseLinkMode kind config = error fmt []).
Proof.
  destruct (Configuration.link_mode_set config) eqn:H.
  - left. eexists. apply chooseLinkMode_set. exact H.
  - destruct (Configuration.meters config) as [|m rest] eqn:Hm.
    + rewrite chooseLinkMode_no_meters by assumption.
      destruct (_ || _); [left|right]; eexists; reflexivity.
    + rewrite (chooseLinkMode_meters _ _ m rest) by assumption.
      destruct (_ || _); [left|right]; eexists; reflexivity.
Qed.

Lemma configure_events config manager td :
  forallb startup_event (events (configure config manager td)) = true.
Proof.
  destruct (MBusDeviceType_eqb (fst td) DEVICE_UNKNOWN) eqn:U.
  - rewrite configure_unknown by (destruct (fst td); simpl in U; congruence).
    destruct (Configuration.daemon config); reflexivity.
  - assert (K : fst td <> DEVICE_UNKNOWN) by (intros E; rewrite E in U; discriminate).
    pose proof (openDevice_quiet config td) as Q.
    apply (forallb_weaken _ _ _ quiet_startup) in Q.
    destruct (chooseLinkMode_cases (fst td) config) as [[config' E]|[fmt E]].
    + destruct (configure_link_ok _ manager _ _ K E)
        as (mid & wmbus & output & Qmid & _ & ->).
      apply (forallb_weaken _ _ _ quiet_startup) in Qmid.
      pose proof (setupMeters_events config' wmbus) as S.
      apply (forallb_weaken _ _ _ setup_startup) in S.
      unfold bind at 1; simpl.
      rewrite !forallb_app, Q; simpl. rewrite Qmid; simpl.
      unfold bind. destruct (outcome (setupMeters config' wmbus)); simpl;
        rewrite ?app_nil_r; exact S.
    + rewrite (configure_link_error _ _ _ _ K E).
      simpl. rewrite forallb_app, Q. reflexivity.
Qed.

Lemma startup_events config :
  forallb startup_event (events (startup config)) = true.
Proof.
  destruct (startup_split config) as [[_ E]|[_ (pre & Q & E)]]; rewrite E; simpl.
  - apply (forallb_weaken _ _ _ quiet_startup). apply openLogfile_quiet.
  - rewrite forallb_app. simpl.
    rewrite (forallb_weaken _ _ _ quiet_startup Q), configure_events.
    reflexivity.
Qed.

(** Telegram handling returns whatever callbacks a meter carries. *)
Lemma invokeUpdates_returns cbs t meter sys :
  returned (invokeUpdates cbs t meter sys) = true.
Proof.
  revert sys. induction cbs as [|cb rest IH]; intros sys; [reflexivity|].
  simpl. destruct cb; simpl.
  - unfold returned, bind at 1; simpl. apply IH.
  - rewrite oneshotCheck_run.
    destruct (_ && _); unfold returned, bind at 1; simpl; apply IH.
Qed.

Lemma handleTelegram_returns t sys : returned (handleTelegram t sys) = true.
Proof.
  unfold handleTelegram. destruct (route t (sys_meters sys)).
  - rewrite invokeListeners_spec. reflexivity.
  - reflexivity.
  - apply invokeUpdates_returns.
Qed.

Lemma deliver_returns ts sys : returned (deliver ts sys) = true.
Proof.
  revert sys. induction ts as [|t rest IH]; intros sys; simpl; [reflexivity|].
  destruct (SerialCommunicationManager.running _); [|reflexivity].
  pose proof (handleTelegram_returns t sys) as H.
  unfold returned in H. destruct (outcome (handleTelegram t sys)) eqn:O;
    try discriminate.
  rewrite (bind_Returned _ _ _ O). unfold returned; simpl. apply IH.
Qed.

(** A run is the start-up followed, when it returned, by lines 308-320. *)
Lemma run_failed config simulated incoming :
  returned (startup config) = false ->
  events (startUsingCommandline config simulated incoming) =
    events (startup config) /\
  returned (startUsingCommandline config simulated incoming) = false.
Proof. apply bind_not_returned. Qed.

Lemma run_started config simulated incoming sys :
  outcome (startup config) = Returned sys ->
  startUsingCommandline config simulated incoming =
  mkRun (events (startup config) ++ events (serve sys simulated incoming))
        (outcome (serve sys simulated incoming)).
Proof.
  intros H. unfold startUsingCommandline.
  rewrite (bind_Returned _ _ _ H). reflexivity.
Qed.

(** Detection is reached exactly when the log file did not stop the
    program, and then reports what [detectMBusDevice] found. *)
Lemma detected_run config simulated incoming :
  detected (events (startUsingCommandline config simulated incoming)) =
  match outcome (openLogfile config) with
  | Returned _ =>
      Some (fst (detectMBusDevice (Configuration.device config)))
  | _ => None
  end.
Proof.
  destruct (events_bind_prefix (startup config)
              (fun sys => serve sys simulated incoming)) as [tail E].
  fold (startUsingCommandline config simulated incoming) in E.
  destruct (startup_split config) as [[O S]|[O (pre & Q & S)]]; rewrite O.
  - assert (R : returned (startup config) = false) by (rewrite S; reflexivity).
    destruct (run_failed config simulated incoming R) as [-> _].
    rewrite S; simpl. apply detected_absent.
    apply (existsb_of_class quiet); [apply quiet_not_Detect|].
    apply openLogfile_quiet.
  - rewrite E, S; simpl. rewrite <- app_assoc, detected_app.
    rewrite (detected_absent pre); [reflexivity|].
    apply (existsb_of_class quiet); [apply quiet_not_Detect | exact Q].
Qed.
End Runs.

(** ** Fatal paths of the start-up *)

Section Fatal.
Context {X : Externals}.

(** C2. In every run in which device detection is reached and reports
    [DEVICE_UNKNOWN], the program calls [warning] with the text that no
    wmbus device was found and terminates through [exit(1)]; the trace of
    the run holds no meter construction and no [waitForStop()]. *)
Theorem unknown_device_exits (config : Configuration.t)
  (simulated incoming : list Telegram) :
  detected (events (startUsingCommandline config simulated incoming)) =
    Some DEVICE_UNKNOWN ->
  outcome (startUsingCommandline config simulated incoming) = Exited 1 /\
  In (Log LWarning "No wmbus device found! Exiting!\n" [])
     (events (startUsingCommandline config simulated incoming)) /\
  existsb is_CreateMeter
    (events (startUsingCommandline config simulated incoming)) = false /\
  existsb is_WaitForStop
    (events (startUsingCommandline config simulated incoming)) = false.
Proof.
  rewrite detected_run. intros D.
  destruct (startup_split config) as [[O _]|[_ (pre & Q & S)]];
    [rewrite O in D; discriminate|].
  destruct (outcome (openLogfile config)); try discriminate.
  inversion D as [U]. rewrite (configure_unknown _ _ _ U) in S. simpl in S.
  unfold startUsingCommandline.
  rewrite (bind_Exited (startup config) _ 1%Z) by (rewrite S; reflexivity).
  rewrite S; simpl. split; [reflexivity|].
  split; [apply in_or_app; right; simpl; auto|].
  rewrite !existsb_app; simpl.
  rewrite (existsb_of_class quiet _ pre quiet_not_CreateMeter Q).
  rewrite (existsb_of_class quiet _ pre quiet_not_WaitForStop Q).
  destruct (Configuration.daemon config); split; reflexivity.
Qed.

(** An unknown meter type is fatal as well: the start-up does not
    return. *)
Lemma unknown_meter_type_fatal config :
  Exists (fun m => toMeterType (MeterInfo.type m) = UNKNOWN_METER)
         (Configuration.meters config) ->
  returned (startup config) = false.
Proof.
  intros U.
  destruct (startup_split config) as [[_ S]|[_ (pre & _ & S)]];
    rewrite S; [reflexivity|].
  unfold returned; simpl.
  destruct (MBusDeviceType_eqb
              (fst (detectMBusDevice (Configuration.device config)))
              DEVICE_UNKNOWN) eqn:Ku.
  - rewrite configure_unknown; [reflexivity|].
    destruct (fst (detectMBusDevice _)); simpl in Ku; congruence.
  - assert (K : fst (detectMBusDevice (Configuration.device config))
                <> DEVICE_UNKNOWN) by (intros E; rewrite E in Ku; discriminate).
    destruct (chooseLinkMode_cases
                (fst (detectMBusDevice (Configuration.device config))) config)
      as [[config' E]|[fmt E]].
    + destruct (configure_link_ok _
                  (manager0 config) _ _ K E)
        as (mid & wmbus & output & _ & _ & ->).
      unfold bind at 1; simpl.
      assert (M : Configuration.meters config' = Configuration.meters config).
      { destruct (Configuration.link_mode_set config) eqn:L.
        - rewrite chooseLinkMode_set in E by exact L. inversion E; reflexivity.
        - destruct (Configuration.meters config) as [|m rest] eqn:Hm.
          + inversion U.
          + rewrite (chooseLinkMode_meters _ _ m rest L Hm) in E.
            destruct (_ || _); inversion E. simpl. exact Hm. }
      unfold setupMeters. rewrite M.
      destruct (Configuration.meters config) as [|m rest] eqn:Hm;
        [inversion U|].
      pose proof (configureMeters_unknown config' (m :: rest) [] U) as F.
      unfold returned in F. cbn -[configureMeters]. unfold bind.
      destruct (outcome (configureMeters config' (m :: rest) []));
        cbn -[configureMeters]; congruence.
    + rewrite (configure_link_error _ _ _ _ K E). reflexivity.
Qed.

(** Nothing after the start-up ends the process. *)
Lemma run_returned config simulated incoming :
  returned (startUsingCommandline config simulated incoming) =
  returned (startup config).
Proof.
  destruct (outcome (startup config)) as [sys| |] eqn:O.
  - rewrite (run_started _ _ _ _ O).
    destruct (startup_Returned _ _ O) as [W _].
    destruct (serve_spec sys simulated incoming W) as (sys' & Os & _).
    unfold returned; simpl. rewrite Os, O. reflexivity.
  - assert (R : returned (startup config) = false)
      by (unfold returned; rewrite O; reflexivity).
    destruct (run_failed config simulated incoming R) as [_ ->].
    symmetry; exact R.
  - assert (R : returned (startup config) = false)
      by (unfold returned; rewrite O; reflexivity).
    destruct (run_failed config simulated incoming R) as [_ ->].
    symmetry; exact R.
Qed.

(** The event loop is entered exactly in the runs that return. *)
Lemma run_WaitForStop config simulated incoming :
  existsb is_WaitForStop
    (events (startUsingCommandline config simulated incoming)) =
  returned (startUsingCommandline config simulated incoming).
Proof.
  destruct (outcome (startup config)) as [sys| |] eqn:O.
  - rewrite (run_started _ _ _ _ O).
    destruct (startup_Returned _ _ O) as [W _].
    destruct (serve_spec sys simulated incoming W) as (sys' & Os & _ & Ws).
    unfold returned; simpl. rewrite Os, existsb_app, Ws.
    apply orb_true_r.
  - assert (R : returned (startup config) = false)
      by (unfold returned; rewrite O; reflexivity).
    destruct (run_failed config simulated incoming R) as [-> ->].
    apply (existsb_of_class startup_event);
      [apply startup_not_WaitForStop | apply startup_events].
  - assert (R : returned (startup config) = false)
      by (unfold returned; rewrite O; reflexivity).
    destruct (run_failed config simulated incoming R) as [-> ->].
    apply (existsb_of_class startup_event);
      [apply startup_not_WaitForStop | apply startup_events].
Qed.

End Fatal.

(** ** The link mode *)

Lemma LinkMode_eqb_eq (a b : LinkMode) : LinkMode_eqb a b = true <-> a = b.
Proof. destruct a, b; simpl; split; congruence. Qed.

Lemma MBusDeviceType_eqb_eq (a b : MBusDeviceType) :
  MBusDeviceType_eqb a b = true <-> a = b.
Proof. destruct a, b; simpl; split; congruence. Qed.

Section LinkModes.
Context {X : Externals}.

Lemma agree_Forall lm ms :
  agree lm ms = true <->
  Forall (fun m => toMeterLinkMode (MeterInfo.type m) = lm) ms.
Proof.
  unfold agree. rewrite forallb_forall, Forall_forall.
  split; intros H m Hm.
  - symmetry. apply LinkMode_eqb_eq. auto.
  - apply LinkMode_eqb_eq. symmetry. auto.
Qed.

(** Two meters of different link modes: some meter after the first
    disagrees with the first. *)
Lemma disagree m rest a b :
  In a (m :: rest) -> In b (m :: rest) ->
  toMeterLinkMode (MeterInfo.type a) <> toMeterLinkMode (MeterInfo.type b) ->
  agree (toMeterLinkMode (MeterInfo.type m)) rest = false.
Proof.
  intros Ha Hb D.
  destruct (agree _ rest) eqn:A; [|reflexivity].
  apply agree_Forall in A. rewrite Forall_forall in A.
  assert (E : forall x, In x (m :: rest) ->
              toMeterLinkMode (MeterInfo.type x)
              = toMeterLinkMode (MeterInfo.type m)).
  { intros x [->|Hx]; auto. }
  rewrite (E a Ha), (E b Hb) in D. contradiction.
Qed.


(** The link-mode block fails: the error is the last event of the run,
    and [setLinkMode] was never called. *)
Lemma run_link_error config simulated incoming fmt :
  outcome (openLogfile config) = Returned tt ->
  fst (detectMBusDevice (Configuration.device config)) <> DEVICE_UNKNOWN ->
  chooseLinkMode (fst (detectMBusDevice (Configuration.device config))) config
    = error fmt [] ->
  outcome (startUsingCommandline config simulated incoming) = Aborted /\
  lastEvent (events (startUsingCommandline config simulated incoming)) =
    Some (Log LError fmt []) /\
  linkModesSet (events (startUsingCommandline config simulated incoming)) = [] /\
  existsb is_WaitForStop
    (events (startUsingCommandline config simulated incoming)) = false.
Proof.
  intros O K E.
  destruct (startup_split config) as [[O' _]|[_ (pre & Q & S)]];
    [congruence|].
  rewrite (configure_link_error _ _ _ _ K E) in S. simpl in S.
  unfold startUsingCommandline.
  rewrite (bind_Aborted (startup config)) by (rewrite S; reflexivity).
  rewrite S; simpl. split; [reflexivity|].
  split.
  - rewrite app_comm_cons, app_assoc. apply lastEvent_snoc.
  - pose proof (openDevice_quiet config
                  (detectMBusDevice (Configuration.device config))) as Qo.
    split.
    + rewrite linkModesSet_app; simpl. rewrite linkModesSet_app; simpl.
      rewrite (linkModesSet_absent pre), (linkModesSet_absent (events _));
        [reflexivity| |];
        apply (existsb_of_class quiet); auto using quiet_not_SetLinkMode.
    + rewrite existsb_app; simpl. rewrite existsb_app; simpl.
      rewrite (existsb_of_class quiet _ pre quiet_not_WaitForStop Q).
      rewrite (existsb_of_class quiet _ _ quiet_not_WaitForStop Qo).
      reflexivity.
Qed.

(** The link-mode block returns: [setLinkMode] is called once, with the
    mode the block left in the configuration, and the start-up returns
    when the construction of the meters does. *)
Lemma run_link_ok config simulated incoming config' :
  outcome (openLogfile config) = Returned tt ->
  fst (detectMBusDevice (Configuration.device config)) <> DEVICE_UNKNOWN ->
  chooseLinkMode (fst (detectMBusDevice (Configuration.device config))) config
    = ret config' ->
  linkModesSet (events (startUsingCommandline config simulated incoming)) =
    [Configuration.link_mode config'] /\
  exists wmbus,
    returned (startUsingCommandline config simulated incoming) =
    returned (setupMeters config' wmbus).
Proof.
  intros O K E.
  destruct (startup_split config) as [[O' _]|[_ (pre & Q & S)]];
    [congruence|].
  destruct (configure_link_ok _
              (manager0 config) _ _ K E)
    as (mid & wmbus & output & Qmid & _ & C).
  rewrite C in S. clear C.
  pose proof (openDevice_quiet config
                (detectMBusDevice (Configuration.device config))) as Qo.
  pose proof (setupMeters_events config' wmbus) as Qs.
  assert (L : linkModesSet (events (startup config)) =
              [Configuration.link_mode config']).
  { rewrite S. unfold bind at 1 2; simpl.
    rewrite linkModesSet_app; simpl. rewrite !linkModesSet_app; simpl.
    rewrite (linkModesSet_absent pre), (linkModesSet_absent (events (openDevice _ _))),
      (linkModesSet_absent mid);
      try (apply (existsb_of_class quiet); auto using quiet_not_SetLinkMode).
    simpl. rewrite linkModesSet_absent; [reflexivity|].
    apply (existsb_of_class setup_event); [apply setup_not_SetLinkMode|].
    unfold bind. destruct (outcome (setupMeters config' wmbus)); simpl;
      rewrite ?app_nil_r; exact Qs. }
  assert (R : returned (startup config) = returned (setupMeters config' wmbus)).
  { rewrite S. unfold returned, bind; simpl.
    destruct (outcome (setupMeters config' wmbus)); reflexivity. }
  split.
  - destruct (outcome (startup config)) as [sys| |] eqn:Os.
    + rewrite (run_started _ _ _ _ Os); simpl.
      destruct (startup_Returned _ _ Os) as [W _].
      destruct (serve_spec sys simulated incoming W) as (_ & _ & Qv & _).
      rewrite linkModesSet_app, L.
      rewrite (linkModesSet_absent (events (serve _ _ _))); [reflexivity|].
      apply (existsb_of_class serve_event); auto using serve_not_SetLinkMode.
    + destruct (run_failed config simulated incoming) as [-> _];
        [unfold returned; rewrite Os; reflexivity | exact L].
    + destruct (run_failed config simulated incoming) as [-> _];
        [unfold returned; rewrite Os; reflexivity | exact L].
  - exists wmbus. rewrite <- R. apply run_returned.
Qed.
End LinkModes.

Section LinkModeClaims.
Context {X : Externals}.

(** C10. In every run with no meter configured and no explicit link mode
    in which detection finds a device: if the device is neither the RTL
    adapter nor the simulator, the run is ended by [error] with the
    message that asks for --c1 or --t1, before [waitForStop()]; if it is
    the RTL adapter or the simulator, the run is not ended by [exit] or
    [error] and enters the event loop. *)
Theorem no_meters_needs_link_mode (config : Configuration.t)
  (simulated incoming : list Telegram) (kind : MBusDeviceType) :
  Configuration.meters config = [] ->
  Configuration.link_mode_set config = false ->
  detected (events (startUsingCommandline config simulated incoming)) =
    Some kind ->
  kind <> DEVICE_UNKNOWN ->
  (kind <> DEVICE_RTLWMBUS -> kind <> DEVICE_SIMULATOR ->
   outcome (startUsingCommandline config simulated incoming) = Aborted /\
   lastEvent (events (startUsingCommandline config simulated incoming)) =
     Some (Log LError
             "If you specify no meters, you have to specify the link mode: --c1 or --t1\n"
             []) /\
   existsb is_WaitForStop
     (events (startUsingCommandline config simulated incoming)) = false)
  /\
  (kind = DEVICE_RTLWMBUS \/ kind = DEVICE_SIMULATOR ->
   returned (startUsingCommandline config simulated incoming) = true /\
   existsb is_WaitForStop
     (events (startUsingCommandline config simulated incoming)) = true).
Proof.
  intros M L D K. rewrite detected_run in D.
  destruct (outcome (openLogfile config)) as [[]| |] eqn:O; try discriminate.
  injection D as Dk.
  pose proof (chooseLinkMode_no_meters kind config L M) as C.
  split.
  - intros NR NS.
    replace (MBusDeviceType_eqb kind DEVICE_RTLWMBUS
             || MBusDeviceType_eqb kind DEVICE_SIMULATOR) with false in C
      by (destruct kind; simpl; congruence).
    subst kind.
    destruct (run_link_error config simulated incoming _ O K C)
      as (R1 & R2 & _ & R3).
    auto.
  - intros RS.
    replace (MBusDeviceType_eqb kind DEVICE_RTLWMBUS
             || MBusDeviceType_eqb kind DEVICE_SIMULATOR) with true in C
      by (destruct RS as [E|E]; rewrite E; reflexivity).
    subst kind.
    destruct (run_link_ok config simulated incoming _ O K C)
      as (_ & wmbus & R).
    rewrite (setupMeters_no_meters _ _ M) in R.
    rewrite run_WaitForStop. split; exact R.
Qed.


End LinkModeClaims.

(** ** Discovery mode, callbacks and dropped telegrams *)

Lemma telegramsPrinted_map (ts : list Telegram) :
  telegramsPrinted (map TelegramPrint ts) = ts.
Proof. induction ts as [|t rest IH]; simpl; congruence. Qed.

Section Telegrams.
Context {X : Externals}.

Lemma chooseLinkMode_ret_meters kind config config' :
  chooseLinkMode kind config = ret config' ->
  Configuration.meters config' = Configuration.meters config.
Proof.
  destruct (Configuration.link_mode_set config) eqn:L.
  - rewrite chooseLinkMode_set by exact L. intros E; inversion E; reflexivity.
  - destruct (Configuration.meters config) as [|m rest] eqn:M.
    + rewrite chooseLinkMode_no_meters by assumption.
      destruct (_ || _); intros E; inversion E. subst. exact M.
    + rewrite (chooseLinkMode_meters _ _ m rest L M).
      destruct (_ || _); intros E; inversion E. simpl. exact M.
Qed.

(** With no meter configured, a start-up that returns has registered the
    print listener, and nothing else, on the device. *)
Lemma startup_discovery config sys :
  Configuration.meters config = [] ->
  outcome (startup config) = Returned sys ->
  sys_meters sys = [] /\
  WMBus.telegram_listeners (sys_wmbus sys) = [CbTelegramPrint] /\
  In (OnTelegram CbTelegramPrint) (events (startup config)).
Proof.
  intros M O.
  destruct (startup_Returned _ _ O) as (_ & _ & Dv & K). rewrite Dv in K.
  destruct (startup_split config) as [[_ S]|[_ (pre & Q & S)]];
    [rewrite S in O; discriminate|].
  destruct (chooseLinkMode_cases
              (fst (detectMBusDevice (Configuration.device config))) config)
    as [[config' E]|[fmt E]].
  - destruct (configure_link_ok _
                (manager0 config) _ _ K E)
      as (mid & wmbus & output & _ & Lw & C).
    rewrite C in S. clear C.
    assert (M' : Configuration.meters config' = [])
      by (rewrite (chooseLinkMode_ret_meters _ _ _ E); exact M).
    rewrite (setupMeters_no_meters _ _ M') in S.
    unfold bind in S; simpl in S.
    rewrite S in O. simpl in O. inversion O; subst; simpl.
    split; [reflexivity|]. split; [rewrite Lw; reflexivity|].
    rewrite S; simpl.
    apply in_or_app; right. right.
    apply in_or_app; right. simpl. auto.
  - rewrite (configure_link_error _ _ _ _ K E) in S.
    rewrite S in O. discriminate.
Qed.

Lemma serve_discovery sys simulated incoming :
  sys_meters sys = [] ->
  WMBus.telegram_listeners (sys_wmbus sys) = [CbTelegramPrint] ->
  SerialCommunicationManager.running (sys_manager sys) = true ->
  telegramsPrinted (events (serve sys simulated incoming)) =
  (if MBusDeviceType_eqb (fst (sys_device sys)) DEVICE_SIMULATOR
   then simulated else []) ++ incoming.
Proof.
  intros M L R. unfold serve.
  destruct (Configuration.daemon (sys_config sys)) eqn:Dm;
    destruct (MBusDeviceType_eqb _ _);
    do 3 (unfold bind; simpl;
          rewrite ?Dm, ?(deliver_discovery _ sys M L R); simpl);
    rewrite ?app_nil_r, ?telegramsPrinted_app; simpl;
    rewrite ?telegramsPrinted_app; simpl;
    rewrite ?telegramsPrinted_map, ?app_nil_r; reflexivity.
Qed.

(** C5 (amended). In every run with no meter configured that is not ended
    by [exit] or [error] during the start-up, the controller registers the
    id-printing callback with [onTelegram], and the telegrams whose
    identification is printed are exactly the emitted ones, one line each,
    in arrival order: those of [simulate()] when the device is the
    simulator, then those that arrive in [waitForStop()]. *)
Theorem discovery_mode (config : Configuration.t)
  (simulated incoming : list Telegram) (kind : MBusDeviceType) :
  Configuration.meters config = [] ->
  returned (startUsingCommandline config simulated incoming) = true ->
  detected (events (startUsingCommandline config simulated incoming)) =
    Some kind ->
  In (OnTelegram CbTelegramPrint)
     (events (startUsingCommandline config simulated incoming)) /\
  telegramsPrinted (events (startUsingCommandline config simulated incoming)) =
    (if MBusDeviceType_eqb kind DEVICE_SIMULATOR then simulated else [])
    ++ incoming.
Proof.
  intros M R D. rewrite run_returned in R. rewrite detected_run in D.
  unfold returned in R.
  destruct (outcome (startup config)) as [sys| |] eqn:O; try discriminate.
  destruct (startup_Returned _ _ O) as (_ & Rn & Dv & _).
  destruct (startup_discovery _ _ M O) as (Ms & Ls & I).
  destruct (outcome (openLogfile config)); try discriminate.
  injection D as Dk.
  rewrite (run_started _ _ _ _ O); simpl. split.
  - apply in_or_app; left; exact I.
  - rewrite telegramsPrinted_app, (serve_discovery _ _ _ Ms Ls Rn).
    rewrite telegramsPrinted_absent.
    + rewrite Dv, Dk. reflexivity.
    + apply (existsb_of_class startup_event);
        [apply startup_not_TelegramPrint | apply startup_events].
Qed.

(** C7. When the first meter that matches a telegram cannot decrypt it,
    the telegram is dropped: its handling returns the system unchanged, so
    every update count and the value of the oneshot predicate are what
    they were, no update callback runs and [stop()] is not called. *)
Theorem undecryptable_telegram_dropped (t : Telegram) (meter : Meter.t)
  (sys : System) :
  first_match t (sys_meters sys) = Some meter ->
  decrypts (Meter.factory meter) (Meter.key meter) t = false ->
  handleTelegram t sys =
    mkRun [DecryptionFailed t (Meter.name meter)] (Returned sys) /\
  routed t (sys_meters sys) = sys_meters sys /\
  (forall sys', outcome (handleTelegram t sys) = Returned sys' ->
     map Meter.numUpdates (sys_meters sys') =
       map Meter.numUpdates (sys_meters sys) /\
     all_updated (sys_meters sys') = all_updated (sys_meters sys) /\
     sys_manager sys' = sys_manager sys) /\
  existsb is_Stop (events (handleTelegram t sys)) = false /\
  existsb is_Stop (events (deliver [t] sys)) = false.
Proof.
  intros F D. pose proof (route_Dropped _ _ _ F D) as R.
  assert (H : handleTelegram t sys =
              mkRun [DecryptionFailed t (Meter.name meter)] (Returned sys)).
  { unfold handleTelegram. rewrite R. reflexivity. }
  split; [exact H|]. split; [unfold routed; rewrite R; reflexivity|].
  split.
  { rewrite H; simpl. intros sys' E. injection E as <-. auto. }
  split; [rewrite H; reflexivity|].
  simpl. destruct (SerialCommunicationManager.running _); [|reflexivity].
  rewrite H. reflexivity.
Qed.

End Telegrams.

(** ** The claims at the sample inputs *)

(** No device answers to the path: warning, [exit(1)], no meter built. *)
Lemma unknown_device_exits_witness :
  detected (events (Sample.run "nothing" [Sample.kitchen] [Sample.t1])) =
    Some DEVICE_UNKNOWN /\
  (outcome (Sample.run "nothing" [Sample.kitchen] [Sample.t1]) = Exited 1 /\
   In (Log LWarning "No wmbus device found! Exiting!\n" [])
      (events (Sample.run "nothing" [Sample.kitchen] [Sample.t1])) /\
   existsb is_CreateMeter
     (events (Sample.run "nothing" [Sample.kitchen] [Sample.t1])) = false /\
   existsb is_WaitForStop
     (events (Sample.run "nothing" [Sample.kitchen] [Sample.t1])) = false).
Proof.
  split; [reflexivity|].
  exact (@unknown_device_exits Sample.externals
           (Sample.config "nothing" [Sample.kitchen]) [] [Sample.t1] eq_refl).
Defined.




(** C5, as stated, fails: no meter, no link mode, an im871a dongle. The
    run ends with the error that asks for --c1 or --t1; the callback is
    never registered and no telegram id is printed. *)
Lemma discovery_mode_counterexample :
  Configuration.meters (Sample.config "/dev/im871a" []) = [] /\
  outcome (Sample.run "/dev/im871a" [] [Sample.t1; Sample.t2; Sample.t3]) =
    Aborted /\
  ~ In (OnTelegram CbTelegramPrint)
       (events (Sample.run "/dev/im871a" [] [Sample.t1; Sample.t2; Sample.t3])) /\
  existsb is_OnTelegram
    (events (Sample.run "/dev/im871a" [] [Sample.t1; Sample.t2; Sample.t3])) =
    false /\
  telegramsPrinted
    (events (Sample.run "/dev/im871a" [] [Sample.t1; Sample.t2; Sample.t3])) = [].
Proof.
  repeat split; try reflexivity.
  vm_compute. intuition discriminate.
Qed.

(** Discovery with the simulator: two telegrams of the file, then one from
    the event loop, printed in that order. *)
Lemma discovery_mode_witness :
  Configuration.meters (Sample.config "simulation.txt" []) = [] /\
  In (OnTelegram CbTelegramPrint)
     (events (@startUsingCommandline Sample.externals
                (Sample.config "simulation.txt" [])
                [Sample.t1; Sample.t2] [Sample.t3])) /\
  telegramsPrinted
    (events (@startUsingCommandline Sample.externals
               (Sample.config "simulation.txt" [])
               [Sample.t1; Sample.t2] [Sample.t3])) =
    [Sample.t1; Sample.t2; Sample.t3].
Proof.
  split; [reflexivity|].
  exact (@discovery_mode Sample.externals (Sample.config "simulation.txt" [])
           [Sample.t1; Sample.t2] [Sample.t3] DEVICE_SIMULATOR
           eq_refl eq_refl eq_refl).
Defined.

(** The wrong key: the telegram for the locked meter is dropped. *)
Lemma undecryptable_telegram_dropped_witness :
  @first_match Sample.externals Sample.t1 (sys_meters Sample.locked_started) =
    Some Sample.locked_meter /\
  @decrypts Sample.externals (Meter.factory Sample.locked_meter)
            (Meter.key Sample.locked_meter) Sample.t1 = false /\
  @handleTelegram Sample.externals Sample.t1 Sample.locked_started =
    mkRun [DecryptionFailed Sample.t1 "locked"] (Returned Sample.locked_started) /\
  existsb is_Stop
    (events (@deliver Sample.externals [Sample.t1] Sample.locked_started)) = false.
Proof.
  split; [reflexivity|]. split; [reflexivity|].
  destruct (@undecryptable_telegram_dropped Sample.externals Sample.t1
              Sample.locked_meter Sample.locked_started eq_refl eq_refl)
    as (H & _ & _ & _ & S).
  split; [exact H | exact S].
Defined.


(** No meter and no link mode: fatal on the im871a dongle, fine on the RTL
    adapter. *)
Lemma no_meters_needs_link_mode_witness :
  (outcome (Sample.run "/dev/im871a" [] [Sample.t1]) = Aborted /\
   lastEvent (events (Sample.run "/dev/im871a" [] [Sample.t1])) =
     Some (Log LError
             "If you specify no meters, you have to specify the link mode: --c1 or --t1\n"
             [])) /\
  (returned (Sample.run "rtlwmbus" [] [Sample.t1]) = true /\
   existsb is_WaitForStop (events (Sample.run "rtlwmbus" [] [Sample.t1])) = true).
Proof.
  split.
  - destruct (@no_meters_needs_link_mode Sample.externals
                (Sample.config "/dev/im871a" []) [] [Sample.t1] DEVICE_IM871A
                eq_refl eq_refl eq_refl ltac:(discriminate)) as [F _].
    destruct (F ltac:(discriminate) ltac:(discriminate)) as (F1 & F2 & _).
    split; [exact F1 | exact F2].
  - destruct (@no_meters_needs_link_mode Sample.externals
                (Sample.config "rtlwmbus" []) [] [Sample.t1] DEVICE_RTLWMBUS
                eq_refl eq_refl eq_refl ltac:(discriminate)) as [_ A].
    exact (A (or_introl eq_refl)).
Defined.

(** ** More on the start-up sequence *)

Lemma early_not_SetLinkMode e : early_event e = true -> is_SetLinkMode e = false.
Proof. destruct e; cbv; congruence. Qed.


Lemma quiet_early e : quiet e = true -> early_event e = true.
Proof. unfold early_event. intros ->. reflexivity. Qed.

Lemma setup_not_WaitForStop e : setup_event e = true -> is_WaitForStop e = false.
Proof. destruct e; cbv; congruence. Qed.

Lemma serve_not_CreateMeter e : serve_event e = true -> is_CreateMeter e = false.
Proof. destruct e; cbv; congruence. Qed.

Section Shape.
Context {X : Externals}.

Lemma chooseLinkMode_ret_same kind config config' :
  chooseLinkMode kind config = ret config' -> same_but_link_mode config config'.
Proof.
  unfold same_but_link_mode.
  destruct (Configuration.link_mode_set config) eqn:L.
  - rewrite chooseLinkMode_set by exact L. intros E; inversion E; auto.
  - destruct (Configuration.meters config) as [|m rest] eqn:M.
    + rewrite chooseLinkMode_no_meters by assumption.
      destruct (_ || _); intros E; inversion E. auto.
    + rewrite (chooseLinkMode_meters _ _ m rest L M).
      destruct (_ || _); intros E; inversion E. right. eexists. reflexivity.
Qed.

Lemma same_but_link_mode_fields c c' :
  same_but_link_mode c c' ->
  Configuration.meters c' = Configuration.meters c /\
  Configuration.list_shell_envs c' = Configuration.list_shell_envs c /\
  Configuration.oneshot c' = Configuration.oneshot c /\
  Configuration.daemon c' = Configuration.daemon c /\
  Configuration.separator c' = Configuration.separator c.
Proof. intros [->|[lm ->]]; repeat split. Qed.

(** The start-up either ends before [setLinkMode], or it is a prelude
    that returns, with one [setLinkMode], followed by the construction of
    the meters. *)
Lemma startup_shape config :
  (returned (startup config) = false /\
   forallb early_event (events (startup config)) = true)
  \/
  (exists config' pre mid wmbus output,
     same_but_link_mode config config' /\
     forallb early_event pre = true /\
     forallb quiet mid = true /\
     WMBus.telegram_listeners wmbus = [] /\
     startup config =
     bind (mkRun (pre ++ SetLinkMode (Configuration.link_mode config') :: mid)
                 (Returned tt))
          (fun _ => wm <- setupMeters config' wmbus ;;
                    ret (mkSystem config'
                           (detectMBusDevice (Configuration.device config))
                           (manager0 config) (fst wm) output (snd wm)))).
Proof.
  destruct (startup_split config) as [[_ S]|[_ (pre & Q & S)]].
  - left. rewrite S. split; [reflexivity|]. simpl.
    apply (forallb_weaken _ _ _ quiet_early). apply openLogfile_quiet.
  - set (td := detectMBusDevice (Configuration.device config)) in *.
    pose proof (forallb_weaken _ _ _ quiet_early Q) as Qe.
    pose proof (forallb_weaken _ _ _ quiet_early (openDevice_quiet config td))
      as Qo.
    destruct (MBusDeviceType_eqb (fst td) DEVICE_UNKNOWN) eqn:U.
    + left. apply MBusDeviceType_eqb_eq in U.
      rewrite (configure_unknown _ _ _ U) in S. rewrite S.
      split; [reflexivity|]. simpl. rewrite forallb_app, Qe. simpl.
      destruct (Configuration.daemon config); reflexivity.
    + assert (K : fst td <> DEVICE_UNKNOWN)
        by (intros E; rewrite E in U; discriminate).
      destruct (chooseLinkMode_cases (fst td) config) as [[config' E]|[fmt E]].
      * right.
        destruct (configure_link_ok _ (manager0 config) _ _ K E)
          as (mid & wmbus & output & Qmid & Lw & C).
        exists config',
          (pre ++ DetectMBusDevice (Configuration.device config) (fst td) (snd td)
               :: events (openDevice config td)),
          mid, wmbus, output.
        split; [eapply chooseLinkMode_ret_same; eauto|].
        split; [rewrite forallb_app, Qe; simpl; exact Qo|].
        split; [exact Qmid|]. split; [exact Lw|].
        rewrite S, C.
        rewrite !(bind_Returned (mkRun _ (Returned tt)) _ tt eq_refl).
        cbn [events outcome].
        repeat (rewrite <- app_assoc || rewrite <- app_comm_cons).
        reflexivity.
      * left. rewrite (configure_link_error _ _ _ _ K E) in S. rewrite S.
        split; [reflexivity|]. simpl.
        rewrite forallb_app, Qe. simpl. rewrite forallb_app, Qo. reflexivity.
Qed.

(** [setLinkMode] in a whole run: never, when the start-up ended early. *)
Lemma run_early config simulated incoming :
  returned (startup config) = false ->
  forallb early_event (events (startup config)) = true ->
  linkModesSet (events (startUsingCommandline config simulated incoming)) = [] /\
  returned (startUsingCommandline config simulated incoming) = false.
Proof.
  intros R Q. destruct (run_failed config simulated incoming R) as [-> ->].
  split; [|reflexivity]. apply linkModesSet_absent.
  apply (existsb_of_class early_event); auto using early_not_SetLinkMode.
Qed.

End Shape.

Lemma length_append (s1 s2 : string) :
  String.length (s1 +++ s2) = String.length s1 + String.length s2.
Proof. induction s1 as [|c s1 IH]; simpl; [reflexivity | now rewrite IH]. Qed.

Section StartupExtras.
Context {X : Externals}.

(** X1. With an explicit link mode, the meters are not examined: on every
    device the link-mode block returns the configuration as it is, without
    an error even when the meters ask for different modes or when there is
    none, and once a device is detected [setLinkMode] receives the explicit
    mode. *)
Theorem explicit_link_mode_used (config : Configuration.t)
  (simulated incoming : list Telegram) (kind : MBusDeviceType) :
  Configuration.link_mode_set config = true ->
  detected (events (startUsingCommandline config simulated incoming)) =
    Some kind ->
  kind <> DEVICE_UNKNOWN ->
  (forall any, chooseLinkMode any config = ret config) /\
  linkModesSet (events (startUsingCommandline config simulated incoming)) =
    [Configuration.link_mode config].
Proof.
  intros L D K. split; [intros any; apply chooseLinkMode_set; exact L|].
  rewrite detected_run in D.
  destruct (outcome (openLogfile config)) as [[]| |] eqn:O; try discriminate.
  injection D as Dk. subst kind.
  apply (run_link_ok config simulated incoming config O K).
  apply chooseLinkMode_set. exact L.
Qed.

(** X2. When the log file cannot be opened: outside daemon mode the run is
    ended by [error] right there, before the manager is created and before
    any device is detected or opened; in daemon mode the program warns that
    it will use syslog and goes on to detect the device. *)
Theorem logfile_failure (config : Configuration.t)
  (simulated incoming : list Telegram) :
  Configuration.use_logfile config = true ->
  enableLogfile (Configuration.logfile config) (Configuration.daemon config) =
    false ->
  if Configuration.daemon config then
    In (Log LWarning "Could not open log file, will use syslog instead.\n" [])
       (events (startUsingCommandline config simulated incoming)) /\
    detected (events (startUsingCommandline config simulated incoming)) =
      Some (fst (detectMBusDevice (Configuration.device config)))
  else
    startUsingCommandline config simulated incoming =
      mkRun [Log LVerbose "(wmbusmeters) using log file %s\n"
               [AStr (Configuration.logfile config)];
             EnableLogfile (Configuration.logfile config) false;
             Log LError "Could not open log file.\n" []]
            Aborted.
Proof.
  intros U F.
  assert (E : events (openLogfile config) =
              [Log LVerbose "(wmbusmeters) using log file %s\n"
                 [AStr (Configuration.logfile config)];
               EnableLogfile (Configuration.logfile config)
                             (Configuration.daemon config);
               if Configuration.daemon config
               then Log LWarning
                      "Could not open log file, will use syslog instead.\n" []
               else Log LError "Could not open log file.\n" []]).
  { unfold openLogfile. rewrite U; simpl. rewrite F; simpl.
    destruct (Configuration.daemon config); reflexivity. }
  pose proof (openLogfile_outcome config) as O. rewrite U, F in O. simpl in O.
  destruct (Configuration.daemon config) eqn:Dm; simpl in O.
  - split.
    + destruct (events_bind_prefix (startup config)
                  (fun sys => serve sys simulated incoming)) as [t1 E1].
      destruct (events_bind_prefix (openLogfile config)
                  (fun _ => announce config ;; md <- detect config ;;
                            configure config (fst md) (snd md))) as [t2 E2].
      unfold startUsingCommandline. rewrite E1.
      unfold startup. rewrite E2, E. simpl. auto.
    + rewrite detected_run, O. reflexivity.
  - destruct (startup_split config) as [[_ S]|[O' _]]; [|congruence].
    unfold startUsingCommandline.
    rewrite (bind_Aborted (startup config)) by (rewrite S; reflexivity).
    rewrite S; simpl. rewrite E. reflexivity.
Qed.

Lemma rtlwmbus_command_not_empty config :
  rtlwmbus_command config <> EmptyString.
Proof.
  unfold rtlwmbus_command.
  destruct (isFrequency (Configuration.device_extra config)).
  - simpl. destruct (Configuration.daemon config); discriminate.
  - destruct (String.eqb_spec (Configuration.device_extra config) EmptyString)
      as [E|E]; [|exact E].
    destruct (Configuration.daemon config); discriminate.
Qed.

(** X3. When the RTL adapter is detected, [openRTLWMBUS] receives a command
    line that is never empty: a [device_extra] that is neither empty nor a
    frequency is passed on unchanged, in daemon mode too, and a frequency is
    never run as a command. *)
Theorem rtlwmbus_command_spawned (config : Configuration.t)
  (simulated incoming : list Telegram) :
  detected (events (startUsingCommandline config simulated incoming)) =
    Some DEVICE_RTLWMBUS ->
  In (OpenDevice DEVICE_RTLWMBUS (rtlwmbus_command config))
     (events (startUsingCommandline config simulated incoming)) /\
  rtlwmbus_command config <> EmptyString /\
  (Configuration.device_extra config <> EmptyString ->
   isFrequency (Configuration.device_extra config) = false ->
   rtlwmbus_command config = Configuration.device_extra config) /\
  (isFrequency (Configuration.device_extra config) = true ->
   rtlwmbus_command config <> Configuration.device_extra config).
Proof.
  intros D. rewrite detected_run in D.
  destruct (startup_split config) as [[O _]|[_ (pre & Q & S)]];
    [rewrite O in D; discriminate|].
  destruct (outcome (openLogfile config)); try discriminate.
  injection D as Dk.
  split; [|split; [apply rtlwmbus_command_not_empty|split]].
  - destruct (events_bind_prefix (startup config)
                (fun sys => serve sys simulated incoming)) as [t1 E1].
    unfold startUsingCommandline. rewrite E1, S. simpl.
    unfold configure.
    destruct (events_bind_prefix
                (openDevice config (detectMBusDevice (Configuration.device config)))
                (fun wmbus =>
                   config0 <- chooseLinkMode
                                (fst (detectMBusDevice (Configuration.device config)))
                                config ;;
                   wmbus0 <- setLinkMode wmbus (Configuration.link_mode config0) ;;
                   output <- newPrinter config0 ;;
                   wm <- setupMeters config0 wmbus0 ;;
                   ret (mkSystem config0
                          (detectMBusDevice (Configuration.device config))
                          (manager0 config) (fst wm) output (snd wm))))
      as [t2 E2].
    unfold manager0 in *. rewrite E2. unfold openDevice. rewrite Dk. simpl.
    apply in_or_app; left. apply in_or_app; right. simpl. auto.
  - intros Ne Nf. unfold rtlwmbus_command. rewrite Nf.
    destruct (String.eqb_spec (Configuration.device_extra config) EmptyString);
      [contradiction|reflexivity].
  - intros Fq. unfold rtlwmbus_command. rewrite Fq. simpl.
    intros E.
    apply (f_equal String.length) in E.
    destruct (Configuration.daemon config); simpl in E;
      rewrite length_append in E; simpl in E; lia.
Qed.


(** X10. A configuration that holds a meter of unknown type never enters
    the event loop, whatever the device, the other meters and the flags:
    the run is ended by [exit] or [error] during the start-up. *)
Theorem unknown_meter_type_never_starts (config : Configuration.t)
  (simulated incoming : list Telegram) (m : MeterInfo.t) :
  In m (Configuration.meters config) ->
  toMeterType (MeterInfo.type m) = UNKNOWN_METER ->
  returned (startUsingCommandline config simulated incoming) = false /\
  existsb is_WaitForStop
    (events (startUsingCommandline config simulated incoming)) = false /\
  existsb is_Stop
    (events (startUsingCommandline config simulated incoming)) = false.
Proof.
  intros I U.
  assert (R : returned (startup config) = false).
  { apply unknown_meter_type_fatal. apply Exists_exists. eauto. }
  rewrite run_WaitForStop, run_returned.
  split; [exact R|]. split; [exact R|].
  destruct (run_failed config simulated incoming R) as [-> _].
  apply (existsb_of_class startup_event);
    [apply startup_not_Stop | apply startup_events].
Qed.
End StartupExtras.

(** ** The meters of a started system *)

Lemma bind_mkRun_Returned {A B : Type} (ev : list Event) (a : A)
  (f : A -> Run B) :
  bind (mkRun ev (Returned a)) f = mkRun (ev ++ events (f a)) (outcome (f a)).
Proof. reflexivity. Qed.


Lemma update_back_identity (cb : UpdateCallback) (meters : list Meter.t) :
  map identity (update_back (Meter.onUpdate cb) meters) = map identity meters /\
  map Meter.numUpdates (update_back (Meter.onUpdate cb) meters)
  = map Meter.numUpdates meters.
Proof.
  induction meters as [|m rest [IH1 IH2]]; [split; reflexivity|].
  destruct rest as [|m' rest]; [split; reflexivity|].
  change (update_back (Meter.onUpdate cb) (m :: m' :: rest))
    with (m :: update_back (Meter.onUpdate cb) (m' :: rest)).
  cbn [map]. cbn [map] in IH1, IH2. rewrite IH1, IH2. split; reflexivity.
Qed.

Section Meters.
Context {X : Externals}.

Lemma printEnvs_run envs :
  printEnvs envs =
  mkRun (map (fun e => Printf "%s\n" [AStr (env_key e)]) envs) (Returned tt).
Proof.
  induction envs as [|e rest IH]; [reflexivity|].
  simpl. rewrite IH. reflexivity.
Qed.

(** Lines 243-298 when the shell environment is asked for. *)
Lemma configureMeters_shell_envs config m rest meters :
  Configuration.list_shell_envs config = true ->
  toMeterType (MeterInfo.type m) <> UNKNOWN_METER ->
  exists f fmt,
    configureMeters config (m :: rest) meters =
    mkRun (CreateMeter f (MeterInfo.name m) (MeterInfo.id m) (MeterInfo.key m)
             :: Log LVerbose fmt
                    [AStr (MeterInfo.name m); AStr (MeterInfo.id m);
                     AStr (keymsg (MeterInfo.key m))]
             :: PrintMeter (MeterInfo.name m)
             :: Printf "Environment variables provided to shell for meter %s:\n"
                       [AStr (MeterInfo.type m)]
             :: map (fun e => Printf "%s\n" [AStr (env_key e)])
                    (printMeter
                       (Meter.mk f (MeterInfo.name m) (MeterInfo.id m)
                                 (MeterInfo.key m) 0%N [])
                       (Configuration.separator config)))
          (Exited 0).
Proof.
  intros L K.
  destruct (constructMeter_cases m meters) as [[U _]|[_ (f & fmt & E)]];
    [contradiction|].
  exists f, fmt. cbn [configureMeters]. rewrite E.
  rewrite bind_mkRun_Returned.
  rewrite L. cbn [when]. unfold listShellEnvs. rewrite back_snoc.
  rewrite printEnvs_run. unfold bind; simpl. rewrite app_nil_r. reflexivity.
Qed.

Lemma configureMeters_identity config ms meters meters' :
  outcome (configureMeters config ms meters) = Returned meters' ->
  map identity meters' = map identity meters ++ map quadruple ms /\
  map Meter.numUpdates meters'
  = map Meter.numUpdates meters ++ map (fun _ => 0%N) ms.
Proof.
  revert meters. induction ms as [|m rest IH]; intros meters.
  - simpl. intros E; inversion E; subst. rewrite !app_nil_r. split; reflexivity.
  - cbn [configureMeters].
    destruct (constructMeter_cases m meters) as [[_ E]|[_ (f & fmt & E)]];
      rewrite E; [discriminate|].
    rewrite bind_mkRun_Returned.
    destruct (Configuration.list_shell_envs config); cbn [when].
    + destruct (listShellEnvs_spec config m
                  (meters ++ [Meter.mk f (MeterInfo.name m) (MeterInfo.id m)
                                       (MeterInfo.key m) 0%N []])) as [_ O].
      rewrite (bind_Exited _ _ _ O). discriminate.
    + rewrite bind_ret_l. unfold onUpdate_back, emit, ret.
      rewrite !bind_mkRun_Returned. cbn [events outcome].
      intros H. destruct (IH _ H) as [I1 I2].
      rewrite I1, I2.
      destruct (update_back_identity CbOneshotCheck
                  (update_back (Meter.onUpdate CbOutputPrint)
                     (meters ++ [Meter.mk f (MeterInfo.name m) (MeterInfo.id m)
                                          (MeterInfo.key m) 0%N []])))
        as [-> ->].
      destruct (update_back_identity CbOutputPrint
                  (meters ++ [Meter.mk f (MeterInfo.name m) (MeterInfo.id m)
                                       (MeterInfo.key m) 0%N []]))
        as [-> ->].
      rewrite !map_app, <- !app_assoc. split; reflexivity.
Qed.

Lemma setupMeters_identity config wmbus wm :
  outcome (setupMeters config wmbus) = Returned wm ->
  map identity (snd wm) = map quadruple (Configuration.meters config) /\
  map Meter.numUpdates (snd wm)
  = map (fun _ => 0%N) (Configuration.meters config).
Proof.
  unfold setupMeters.
  destruct (Configuration.meters config) as [|m rest] eqn:M.
  - simpl. intros E; inversion E; subst. split; reflexivity.
  - change (0 <? List.length (m :: rest))%nat with true. cbv iota.
    intros H. apply bind_returned_inv in H. destruct H as (meters & H1 & H2).
    inversion H2; subst. cbn [snd].
    apply (configureMeters_identity _ _ _ _ H1).
Qed.

Lemma startup_meters config sys :
  outcome (startup config) = Returned sys ->
  map identity (sys_meters sys) = map quadruple (Configuration.meters config) /\
  map Meter.numUpdates (sys_meters sys)
  = map (fun _ => 0%N) (Configuration.meters config) /\
  Configuration.oneshot (sys_config sys) = Configuration.oneshot config.
Proof.
  intros O.
  destruct (startup_shape config)
    as [[R _]|(config' & pre & mid & wmbus & output & Sb & _ & _ & _ & S)].
  - unfold returned in R. rewrite O in R. discriminate.
  - rewrite S in O. rewrite bind_mkRun_Returned in O.
    cbn [events outcome] in O.
    apply bind_returned_inv in O. destruct O as (wm & H1 & H2).
    inversion H2; subst. cbn [sys_meters sys_config].
    destruct (same_but_link_mode_fields _ _ Sb) as (M & _ & Os & _).
    destruct (setupMeters_identity _ _ _ H1) as [I1 I2]. rewrite M in I1, I2.
    auto.
Qed.

(** X7. When lines 128-306 return, before [simulate()] and
    [waitForStop()] are called, the meter vector holds one instance per
    configured meter, in the configured order, with the configured name,
    id and key, and every update count is zero. *)
Theorem meters_follow_configuration (config : Configuration.t) (sys : System) :
  outcome (startup config) = Returned sys ->
  map identity (sys_meters sys) = map quadruple (Configuration.meters config) /\
  Forall (fun m => Meter.numUpdates m = 0%N) (sys_meters sys) /\
  List.length (sys_meters sys) = List.length (Configuration.meters config).
Proof.
  intros O. destruct (startup_meters config sys O) as (I1 & I2 & _).
  split; [exact I1|]. split.
  - apply Forall_forall. intros m Hm.
    apply (in_map Meter.numUpdates) in Hm. rewrite I2 in Hm.
    apply in_map_iff in Hm. destruct Hm as (? & E & _). auto.
  - apply (f_equal (@List.length _)) in I1. rewrite !length_map in I1.
    exact I1.
Qed.

End Meters.

(** ** Update callbacks, in registration order *)

Lemma callbacksRegistered_app (a b : list Event) :
  callbacksRegistered (a ++ b) =
  callbacksRegistered a ++ callbacksRegistered b.
Proof.
  induction a as [|e a IH]; simpl; [reflexivity|].
  destruct e; simpl; congruence.
Qed.

Lemma callbacksRegistered_absent (tr : list Event) :
  existsb is_OnUpdate tr = false -> callbacksRegistered tr = [].
Proof.
  induction tr as [|e tr IH]; simpl; [reflexivity|].
  destruct e; simpl; auto; discriminate.
Qed.

Lemma early_not_OnUpdate e : early_event e = true -> is_OnUpdate e = false.
Proof. destruct e; cbv; congruence. Qed.

Lemma quiet_not_OnUpdate e : quiet e = true -> is_OnUpdate e = false.
Proof. destruct e; cbv; congruence. Qed.

Lemma bind_ext {A B : Type} (m : Run A) (f g : A -> Run B) :
  (forall a, f a = g a) -> bind m f = bind m g.
Proof.
  intros H. unfold bind. destruct (outcome m); [rewrite H|..]; reflexivity.
Qed.

Section Callbacks.
Context {X : Externals}.

(** The loop of lines 243-301 registers, for each configured meter in
    turn, the output print and then the oneshot check. *)
Lemma configureMeters_callbacks config ms meters meters' :
  outcome (configureMeters config ms meters) = Returned meters' ->
  callbacksRegistered (events (configureMeters config ms meters)) =
  flat_map (fun _ => [CbOutputPrint; CbOneshotCheck]) ms.
Proof.
  revert meters. induction ms as [|m rest IH]; intros meters; simpl;
    [reflexivity|].
  destruct (constructMeter_cases m meters) as [[_ E]|[_ (f & fmt & E)]];
    rewrite E; [discriminate|].
  unfold bind at 1; simpl.
  destruct (Configuration.list_shell_envs config); simpl.
  - destruct (listShellEnvs_spec config m
                (meters ++ [Meter.mk f (MeterInfo.name m) (MeterInfo.id m)
                                     (MeterInfo.key m) 0%N []])) as [Q O].
    unfold bind at 1. rewrite O; simpl. discriminate.
  - intros H. rewrite (IH _ H). reflexivity.
Qed.

Lemma startup_callbacks config sys :
  outcome (startup config) = Returned sys ->
  callbacksRegistered (events (startup config)) =
  flat_map (fun _ => [CbOutputPrint; CbOneshotCheck])
           (Configuration.meters config).
Proof.
  intros H.
  destruct (startup_shape config)
    as [[R _]|(config' & pre & mid & wmbus & output & Sb & Qp & Qm & _ & S)].
  - unfold returned in R. rewrite H in R. discriminate.
  - destruct (same_but_link_mode_fields _ _ Sb) as (M & _).
    rewrite S in H |- *. rewrite bind_mkRun_Returned in H |- *.
    cbn [events outcome] in H |- *.
    apply bind_returned_inv in H. destruct H as (wm & Hs & _).
    rewrite (bind_Returned _ _ _ Hs). cbn [events ret]. rewrite app_nil_r.
    rewrite !callbacksRegistered_app. cbn [callbacksRegistered].
    rewrite (callbacksRegistered_absent pre), (callbacksRegistered_absent mid);
      [| apply (existsb_of_class quiet); auto using quiet_not_OnUpdate
       | apply (existsb_of_class early_event); auto using early_not_OnUpdate].
    cbn [app]. unfold setupMeters in Hs |- *. rewrite M in Hs |- *.
    destruct (Configuration.meters config) as [|m rest]; [reflexivity|].
    cbn [List.length Nat.ltb Nat.leb] in Hs |- *.
    apply bind_returned_inv in Hs. destruct Hs as (meters & Hc & _).
    rewrite (bind_Returned _ _ _ Hc). cbn [events ret]. rewrite app_nil_r.
    apply (configureMeters_callbacks _ _ _ _ Hc).
Qed.

(** The callbacks of a list are invoked front to back: those of a prefix
    have all completed when the first of the rest is called. *)
Lemma invokeUpdates_app cbs1 cbs2 t meter sys :
  invokeUpdates (cbs1 ++ cbs2) t meter sys =
  (sys1 <- invokeUpdates cbs1 t meter sys ;; invokeUpdates cbs2 t meter sys1).
Proof.
  revert sys. induction cbs1 as [|cb cbs1 IH]; intros sys; simpl.
  - rewrite bind_ret_l. reflexivity.
  - rewrite bind_assoc. apply bind_ext. exact IH.
Qed.

(** The meter that handles a telegram is the first that matches it, with
    its update count incremented. *)
Lemma route_Handled_first t meters m :
  first_match t meters = Some m ->
  decrypts (Meter.factory m) (Meter.key m) t = true ->
  route t meters = Handled (Meter.bump m) (routed t meters).
Proof.
  intros F D.
  assert (E : exists meters', route t meters = Handled (Meter.bump m) meters').
  { revert F. unfold first_match.
    induction meters as [|k rest IH]; simpl; [discriminate|].
    destruct (matches _ _ t).
    - intros H. injection H as ->. rewrite D. eexists. reflexivity.
    - intros H. destruct (IH H) as [meters' ->]. eexists. reflexivity. }
  destruct E as [meters' E]. unfold routed. rewrite E. reflexivity.
Qed.

Lemma route_Handled_inv t meters meter meters' :
  route t meters = Handled meter meters' ->
  exists m,
    first_match t meters = Some m /\
    decrypts (Meter.factory m) (Meter.key m) t = true /\
    meter = Meter.bump m.
Proof.
  unfold first_match. revert meters'.
  induction meters as [|k rest IH]; simpl; intros meters'; [discriminate|].
  destruct (matches _ _ t).
  - destruct (decrypts _ _ t) eqn:D; [|discriminate].
    intros H. injection H as <- _. exists k. auto.
  - destruct (route t rest) as [| |m' rest'] eqn:R; try discriminate.
    intros H. injection H as <- _. apply (IH _ eq_refl).
Qed.

(** C6. The loop of lines 243-301 registers, for every configured meter,
    the output print first and the oneshot check second, and in every system
    that a returned start-up built and that has handled any telegrams since,
    every meter carries exactly these two callbacks in this order. The
    callbacks of a list are invoked front to back. So whenever such a system
    handles a telegram (its first matching meter decrypts it), the handling
    returns and its trace starts with the [output->print] of that telegram
    under the name of the handling meter; the oneshot check comes after it,
    run against the meter vector in which the count of the handling meter
    has gone up by one, and only when it finds every count positive under
    the oneshot flag do the verbose line and [stop()] follow. A [stop()] in
    the handling of any telegram is therefore the last event, and the
    reading of the handling meter has been printed before it. *)
Theorem print_before_oneshot (config : Configuration.t) (sys0 sys : System)
  (ts : list Telegram) :
  outcome (startup config) = Returned sys0 ->
  outcome (deliver ts sys0) = Returned sys ->
  callbacksRegistered (events (startup config)) =
    flat_map (fun _ => [CbOutputPrint; CbOneshotCheck])
             (Configuration.meters config) /\
  Forall (fun m => Meter.on_update m = [CbOutputPrint; CbOneshotCheck])
         (sys_meters sys) /\
  (forall cbs1 cbs2 t meter s,
     invokeUpdates (cbs1 ++ cbs2) t meter s =
     (s1 <- invokeUpdates cbs1 t meter s ;; invokeUpdates cbs2 t meter s1)) /\
  (forall t m,
     first_match t (sys_meters sys) = Some m ->
     decrypts (Meter.factory m) (Meter.key m) t = true ->
     route t (sys_meters sys) =
       Handled (Meter.bump m) (routed t (sys_meters sys)) /\
     handleTelegram t sys =
     mkRun (OutputPrint t (Meter.name m)
              :: if Configuration.oneshot (sys_config sys)
                    && all_updated (routed t (sys_meters sys))
                 then [Log LVerbose
                         "(main) all meters have received at least one update, stopping.\n"
                         [];
                       Stop]
                 else [])
           (Returned
              (with_manager (with_meters sys (routed t (sys_meters sys)))
                 (if Configuration.oneshot (sys_config sys)
                     && all_updated (routed t (sys_meters sys))
                  then stopped (sys_manager sys)
                  else sys_manager sys)))) /\
  (forall t pre post,
     events (handleTelegram t sys) = pre ++ Stop :: post ->
     exists m,
       first_match t (sys_meters sys) = Some m /\
       decrypts (Meter.factory m) (Meter.key m) t = true /\
       In (OutputPrint t (Meter.name m)) pre /\
       post = []).
Proof.
  intros O Od.
  destruct (startup_Returned _ _ O) as (W0 & _).
  destruct (deliver_spec ts sys0 W0) as (sys' & Od' & _ & W & _).
  rewrite Od in Od'. injection Od' as <-.
  assert (Hd : forall t m,
             first_match t (sys_meters sys) = Some m ->
             decrypts (Meter.factory m) (Meter.key m) t = true ->
             route t (sys_meters sys) =
               Handled (Meter.bump m) (routed t (sys_meters sys)) /\
             handleTelegram t sys =
             mkRun (OutputPrint t (Meter.name m)
                      :: if Configuration.oneshot (sys_config sys)
                            && all_updated (routed t (sys_meters sys))
                         then [Log LVerbose
                                 "(main) all meters have received at least one update, stopping.\n"
                                 [];
                               Stop]
                         else [])
                   (Returned
                      (with_manager
                         (with_meters sys (routed t (sys_meters sys)))
                         (if Configuration.oneshot (sys_config sys)
                             && all_updated (routed t (sys_meters sys))
                          then stopped (sys_manager sys)
                          else sys_manager sys)))).
  { intros t m F D. pose proof (route_Handled_first _ _ _ F D) as R.
    split; [exact R|].
    destruct (route_Handled_wired _ _ _ _ R W) as [Wm _].
    unfold handleTelegram. rewrite R.
    rewrite (invokeUpdates_wired _ _ _ Wm), oneshotCheck_events.
    reflexivity. }
  split; [exact (startup_callbacks _ _ O)|].
  split; [exact W|].
  split; [intros; apply invokeUpdates_app|].
  split; [exact Hd|].
  intros t pre post E.
  destruct (route t (sys_meters sys)) as [|meter|meter meters] eqn:R.
  - unfold handleTelegram in E. rewrite R in E.
    rewrite invokeListeners_spec in E. unfold bind in E; simpl in E.
    rewrite app_nil_r in E.
    assert (I : In Stop (map (fun _ => TelegramPrint t)
                             (WMBus.telegram_listeners (sys_wmbus sys))))
      by (rewrite E; apply in_or_app; right; left; reflexivity).
    apply in_map_iff in I. destruct I as (? & ? & _). discriminate.
  - unfold handleTelegram in E. rewrite R in E. simpl in E.
    destruct pre as [|? [|? ?]]; discriminate.
  - destruct (route_Handled_inv _ _ _ _ R) as (m & F & D & _).
    exists m. split; [exact F|]. split; [exact D|].
    destruct (Hd t m F D) as [_ H]. rewrite H in E. cbn [events] in E.
    destruct (Configuration.oneshot (sys_config sys)
              && all_updated (routed t (sys_meters sys))).
    + destruct pre as [|e0 [|e1 [|e2 pre]]]; cbn [app] in E;
        try discriminate.
      * inversion E; subst. split; [left|]; reflexivity.
      * inversion E as [[E0 E1 E2 E3]]. destruct pre; discriminate.
    + destruct pre as [|e0 [|e1 pre]]; discriminate.
Qed.
End Callbacks.

(** ** The four fatal paths of the start-up *)

Section FatalPaths.
Context {X : Externals}.

(** No device: the warning and [exit(1)]. *)
Lemma run_unknown_device config simulated incoming :
  detected (events (startUsingCommandline config simulated incoming)) =
    Some DEVICE_UNKNOWN ->
  outcome (startUsingCommandline config simulated incoming) = Exited 1 /\
  In (Log LWarning "No wmbus device found! Exiting!\n" [])
     (events (startUsingCommandline config simulated incoming)).
Proof.
  rewrite detected_run. intros D.
  destruct (startup_split config) as [[O _]|[_ (pre & Q & S)]];
    [rewrite O in D; discriminate|].
  destruct (outcome (openLogfile config)); try discriminate.
  inversion D as [U]. rewrite (configure_unknown _ _ _ U) in S. simpl in S.
  unfold startUsingCommandline.
  rewrite (bind_Exited (startup config) _ 1%Z) by (rewrite S; reflexivity).
  rewrite S; simpl. split; [reflexivity|].
  apply in_or_app; right; simpl; auto.
Qed.

(** The loop of lines 243-301 with the shell environment not asked for:
    the meters before the first one of unknown type are constructed, and
    the [error] of the default case is the last thing that happens. *)
Lemma configureMeters_first_unknown config before m after meters :
  Configuration.list_shell_envs config = false ->
  Forall (fun k => toMeterType (MeterInfo.type k) <> UNKNOWN_METER) before ->
  toMeterType (MeterInfo.type m) = UNKNOWN_METER ->
  exists ev,
    configureMeters config (before ++ m :: after) meters =
    mkRun (ev ++ [Log LError
                    ("No such meter type " +++ dq +++ "%s" +++ dq +++ "\n")
                    [AStr (MeterInfo.type m)]])
          Aborted.
Proof.
  intros L K U. revert meters.
  induction K as [|k before Kk _ IH]; intros meters.
  - exists []. cbn [app configureMeters].
    destruct (constructMeter_cases m meters) as [[_ E]|[Kn _]];
      [|contradiction].
    rewrite E. reflexivity.
  - cbn [app configureMeters].
    destruct (constructMeter_cases k meters) as [[Uk _]|[_ (f & fmt & E)]];
      [contradiction|].
    rewrite E, bind_mkRun_Returned, L. cbn [when].
    rewrite bind_ret_l. unfold onUpdate_back, emit, ret.
    repeat (rewrite bind_mkRun_Returned; cbn [events outcome app]).
    destruct (IH (update_back (Meter.onUpdate CbOneshotCheck)
                    (update_back (Meter.onUpdate CbOutputPrint)
                       (meters ++ [Meter.mk f (MeterInfo.name k)
                                     (MeterInfo.id k) (MeterInfo.key k)
                                     0%N []])))) as [ev ->].
    cbn [events outcome].
    eexists (_ :: _ :: _ :: _ :: ev). reflexivity.
Qed.

Lemma run_first_unknown config simulated incoming before m after :
  Configuration.meters config = before ++ m :: after ->
  Forall (fun k => toMeterType (MeterInfo.type k) <> UNKNOWN_METER) before ->
  toMeterType (MeterInfo.type m) = UNKNOWN_METER ->
  Configuration.list_shell_envs config = false ->
  linkModesSet (events (startUsingCommandline config simulated incoming))
    <> [] ->
  outcome (startUsingCommandline config simulated incoming) = Aborted /\
  lastEvent (events (startUsingCommandline config simulated incoming)) =
    Some (Log LError ("No such meter type " +++ dq +++ "%s" +++ dq +++ "\n")
              [AStr (MeterInfo.type m)]).
Proof.
  intros M K U L S0.
  destruct (startup_shape config)
    as [[R Q]|(config' & pre & mid & wmbus & output & Sb & Qp & Qm & _ & S)].
  - destruct (run_early config simulated incoming R Q) as [E _].
    contradiction.
  - destruct (same_but_link_mode_fields _ _ Sb) as (M' & L' & _).
    rewrite M in M'. rewrite L in L'.
    destruct (configureMeters_first_unknown config' before m after [] L' K U)
      as [ev E].
    assert (Sm : setupMeters config' wmbus =
                 mkRun (ev ++ [Log LError
                                 ("No such meter type " +++ dq +++ "%s" +++ dq
                                  +++ "\n")
                                 [AStr (MeterInfo.type m)]])
                       Aborted).
    { unfold setupMeters. rewrite M', E.
      destruct before; reflexivity. }
    rewrite Sm in S. rewrite bind_mkRun_Returned in S.
    cbn [events outcome bind] in S.
    unfold startUsingCommandline.
    rewrite (bind_Aborted (startup config)) by (rewrite S; reflexivity).
    rewrite S. cbn [events outcome]. split; [reflexivity|].
    rewrite app_assoc. apply lastEvent_snoc.
Qed.

(** C8. Each of the four fatal paths of the start-up ends the process, and
    does so with no [waitForStop()] in the trace. (1) When detection
    reports [DEVICE_UNKNOWN] the run ends with [exit(1)]. (2) With no
    explicit link mode and two configured meters of different link modes,
    on a detected device other than the RTL adapter, the run is ended by
    [error] with the message that a different link mode has been set
    already. (3) With no meter and no explicit link mode, on a detected
    device that is neither the RTL adapter nor the simulator, the run is
    ended by [error] with the message that asks for --c1 or --t1. (4) With
    a configured meter of unknown type the run is ended by [exit] or
    [error]; when the shell environment is not asked for and the run gets as
    far as [setLinkMode], it is ended by [error] with the message that names
    the type of the first such meter. And nothing after the start-up ends
    the process: the run is ended by [exit] or [error] exactly when lines
    128-306 are, [waitForStop()] is in the trace exactly when the run is not
    ended that way, and the delivery of any telegrams to any system
    returns. *)
Theorem fatal_only_before_event_loop (config : Configuration.t)
  (simulated incoming : list Telegram) :
  (detected (events (startUsingCommandline config simulated incoming)) =
     Some DEVICE_UNKNOWN ->
   outcome (startUsingCommandline config simulated incoming) = Exited 1 /\
   In (Log LWarning "No wmbus device found! Exiting!\n" [])
      (events (startUsingCommandline config simulated incoming)) /\
   existsb is_WaitForStop
     (events (startUsingCommandline config simulated incoming)) = false) /\
  (forall kind a b,
     Configuration.link_mode_set config = false ->
     In a (Configuration.meters config) ->
     In b (Configuration.meters config) ->
     toMeterLinkMode (MeterInfo.type a) <> toMeterLinkMode (MeterInfo.type b) ->
     detected (events (startUsingCommandline config simulated incoming)) =
       Some kind ->
     kind <> DEVICE_UNKNOWN ->
     kind <> DEVICE_RTLWMBUS ->
     outcome (startUsingCommandline config simulated incoming) = Aborted /\
     lastEvent (events (startUsingCommandline config simulated incoming)) =
       Some (Log LError "A different link mode has been set already.\n" []) /\
     existsb is_WaitForStop
       (events (startUsingCommandline config simulated incoming)) = false) /\
  (forall kind,
     Configuration.meters config = [] ->
     Configuration.link_mode_set config = false ->
     detected (events (startUsingCommandline config simulated incoming)) =
       Some kind ->
     kind <> DEVICE_UNKNOWN ->
     kind <> DEVICE_RTLWMBUS ->
     kind <> DEVICE_SIMULATOR ->
     outcome (startUsingCommandline config simulated incoming) = Aborted /\
     lastEvent (events (startUsingCommandline config simulated incoming)) =
       Some (Log LError
               "If you specify no meters, you have to specify the link mode: --c1 or --t1\n"
               []) /\
     existsb is_WaitForStop
       (events (startUsingCommandline config simulated incoming)) = false) /\
  (forall before m after,
     Configuration.meters config = before ++ m :: after ->
     Forall (fun k => toMeterType (MeterInfo.type k) <> UNKNOWN_METER)
            before ->
     toMeterType (MeterInfo.type m) = UNKNOWN_METER ->
     returned (startUsingCommandline config simulated incoming) = false /\
     existsb is_WaitForStop
       (events (startUsingCommandline config simulated incoming)) = false /\
     (Configuration.list_shell_envs config = false ->
      linkModesSet (events (startUsingCommandline config simulated incoming))
        <> [] ->
      outcome (startUsingCommandline config simulated incoming) = Aborted /\
      lastEvent (events (startUsingCommandline config simulated incoming)) =
        Some (Log LError
                ("No such meter type " +++ dq +++ "%s" +++ dq +++ "\n")
                [AStr (MeterInfo.type m)]))) /\
  returned (startUsingCommandline config simulated incoming) =
    returned (startup config) /\
  existsb is_WaitForStop
    (events (startUsingCommandline config simulated incoming)) =
    returned (startUsingCommandline config simulated incoming) /\
  (forall ts sys, returned (deliver ts sys) = true) /\
  (forall t sys, returned (handleTelegram t sys) = true).
Proof.
  split.
  { intros D. destruct (run_unknown_device _ _ _ D) as [O I].
    split; [exact O|]. split; [exact I|].
    rewrite run_WaitForStop. unfold returned. rewrite O. reflexivity. }
  split.
  { intros kind a b L Ha Hb Dab D K NR. rewrite detected_run in D.
    destruct (outcome (openLogfile config)) as [[]| |] eqn:O;
      try discriminate.
    injection D as Dk.
    destruct (Configuration.meters config) as [|m rest] eqn:M;
      [inversion Ha|].
    pose proof (chooseLinkMode_meters kind config m rest L M) as C.
    rewrite (disagree m rest a b Ha Hb Dab) in C. simpl in C.
    replace (MBusDeviceType_eqb kind DEVICE_RTLWMBUS) with false in C
      by (destruct kind; simpl; congruence).
    subst kind.
    destruct (run_link_error config simulated incoming _ O K C)
      as (R1 & R2 & _ & R3).
    auto. }
  split.
  { intros kind M L D K NR NS. rewrite detected_run in D.
    destruct (outcome (openLogfile config)) as [[]| |] eqn:O;
      try discriminate.
    injection D as Dk.
    pose proof (chooseLinkMode_no_meters kind config L M) as C.
    replace (MBusDeviceType_eqb kind DEVICE_RTLWMBUS
             || MBusDeviceType_eqb kind DEVICE_SIMULATOR) with false in C
      by (destruct kind; simpl; congruence).
    subst kind.
    destruct (run_link_error config simulated incoming _ O K C)
      as (R1 & R2 & _ & R3).
    auto. }
  split.
  { intros before m after M K U.
    assert (R : returned (startUsingCommandline config simulated incoming)
                = false).
    { rewrite run_returned. apply unknown_meter_type_fatal.
      rewrite M. apply Exists_app. right. left. exact U. }
    split; [exact R|]. split; [rewrite run_WaitForStop; exact R|].
    intros L S. apply (run_first_unknown _ _ _ _ _ _ M K U L S). }
  split; [apply run_returned|].
  split; [apply run_WaitForStop|].
  split; [apply deliver_returns | apply handleTelegram_returns].
Qed.
End FatalPaths.

(** Two meters, oneshot, after the first telegram: the telegram of the
    second meter is handled by it, printed under its name, and [stop()]
    follows the print. *)
Lemma print_before_oneshot_witness :
  outcome (@startup Sample.externals Sample.oneshot_config) =
    Returned Sample.started /\
  outcome (@deliver Sample.externals [Sample.t1] Sample.started) =
    Returned Sample.after_t1 /\
  callbacksRegistered (events (@startup Sample.externals Sample.oneshot_config)) =
    [CbOutputPrint; CbOneshotCheck; CbOutputPrint; CbOneshotCheck] /\
  events (@handleTelegram Sample.externals Sample.t2 Sample.after_t1) =
    [OutputPrint Sample.t2 "bath";
     Log LVerbose
       "(main) all meters have received at least one update, stopping.\n" [];
     Stop].
Proof.
  split; [reflexivity|]. split; [reflexivity|].
  destruct (@print_before_oneshot Sample.externals Sample.oneshot_config
              Sample.started Sample.after_t1 [Sample.t1] eq_refl eq_refl)
    as (C & _ & _ & H & _).
  split; [exact C|].
  destruct (H Sample.t2
              (Meter.mk Supercom587 "bath" "11223344" Sample.right_key 0%N
                        [CbOutputPrint; CbOneshotCheck])
              eq_refl eq_refl) as [_ E].
  exact (f_equal events E).
Defined.

(** The four fatal paths: no device; a C1 and a T1 meter on an im871a
    dongle; no meter and no link mode on an im871a dongle; a meter of
    unknown type after a known one. *)
Lemma fatal_only_before_event_loop_witness :
  outcome (Sample.run "nothing" [Sample.kitchen] [Sample.t1]) = Exited 1 /\
  outcome (Sample.run "/dev/im871a" [Sample.kitchen; Sample.bath] [Sample.t1]) =
    Aborted /\
  outcome (Sample.run "/dev/im871a" [] [Sample.t1]) = Aborted /\
  (outcome (Sample.run "rtlwmbus" [Sample.kitchen; Scenario.ghost] [Sample.t1]) =
     Aborted /\
   lastEvent
     (events (Sample.run "rtlwmbus" [Sample.kitchen; Scenario.ghost] [Sample.t1])) =
     Some (Log LError ("No such meter type " +++ dq +++ "%s" +++ dq +++ "\n")
               [AStr "nosuchmeter"])).
Proof.
  split.
  { exact (proj1 (proj1 (@fatal_only_before_event_loop Sample.externals
                            (Sample.config "nothing" [Sample.kitchen])
                            [] [Sample.t1]) eq_refl)). }
  split.
  { exact (proj1 (proj1 (proj2 (@fatal_only_before_event_loop Sample.externals
                            (Sample.config "/dev/im871a"
                               [Sample.kitchen; Sample.bath])
                            [] [Sample.t1]))
                    DEVICE_IM871A Sample.kitchen Sample.bath eq_refl
                    (or_introl eq_refl) (or_intror (or_introl eq_refl))
                    ltac:(discriminate) eq_refl ltac:(discriminate)
                    ltac:(discriminate))). }
  split.
  { exact (proj1 (proj1 (proj2 (proj2 (@fatal_only_before_event_loop
                            Sample.externals (Sample.config "/dev/im871a" [])
                            [] [Sample.t1])))
                    DEVICE_IM871A eq_refl eq_refl eq_refl ltac:(discriminate)
                    ltac:(discriminate) ltac:(discriminate))). }
  exact (proj2 (proj2 (proj1 (proj2 (proj2 (proj2
           (@fatal_only_before_event_loop Sample.externals
              (Sample.config "rtlwmbus" [Sample.kitchen; Scenario.ghost])
              [] [Sample.t1]))))
           [Sample.kitchen] Scenario.ghost [] eq_refl
           ltac:(repeat constructor; discriminate) eq_refl))
         eq_refl ltac:(vm_compute; discriminate)).
Defined.

(** ** Runs that never stop by themselves *)

Section Quiet.
Context {X : Externals}.




End Quiet.

(** ** The key of an environment variable *)

Lemma index_eq_cons (c : ascii) (s : string) :
  index 0 "=" (String c s) =
  if Ascii.eqb c "="%char then Some 0
  else match index 0 "=" s with Some n => Some (S n) | None => None end.
Proof.
  cbn [index prefix].
  destruct (Ascii.eqb_spec c "="%char) as [->|N].
  - destruct s; reflexivity.
  - destruct (ascii_dec "=" c) as [E|_]; [congruence|]. reflexivity.
Qed.

Lemma prefix_refl (s : string) : prefix s s = true.
Proof.
  induction s as [|c s IH]; [reflexivity|].
  cbn [prefix]. destruct (ascii_dec c c); [exact IH|congruence].
Qed.

Lemma prefix_substring (n : nat) (s : string) :
  prefix (substring 0 n s) s = true.
Proof.
  revert n. induction s as [|c s IH]; intros [|n]; try reflexivity.
  cbn [substring prefix]. destruct (ascii_dec c c); [apply IH|congruence].
Qed.

(** The text before the first ['='] holds no ['=']. *)
Lemma index_before (e : string) (i : nat) :
  index 0 "=" e = Some i ->
  index 0 "=" (substring 0 i e) = None.
Proof.
  revert i. induction e as [|c e IH]; intros i H.
  - discriminate.
  - rewrite index_eq_cons in H.
    destruct (Ascii.eqb c "="%char) eqn:E.
    + injection H as <-. reflexivity.
    + destruct (index 0 "=" e) as [n|]; [|discriminate].
      injection H as <-. cbn [substring].
      rewrite index_eq_cons, E, (IH n eq_refl). reflexivity.
Qed.

(** In name=value, for a name without ['='], the first ['='] is at the
    length of the name and the text before it is the name. *)
Lemma index_assignment (name value : string) :
  index 0 "=" name = None ->
  index 0 "=" (name +++ "=" +++ value) = Some (String.length name) /\
  substring 0 (String.length name) (name +++ "=" +++ value) = name.
Proof.
  induction name as [|c name IH]; intros H.
  - cbn [append String.length]. rewrite index_eq_cons. split; reflexivity.
  - rewrite index_eq_cons in H. cbn [append String.length].
    rewrite index_eq_cons.
    destruct (Ascii.eqb c "="%char); [discriminate|].
    destruct (index 0 "=" name) eqn:I; [discriminate|].
    specialize (IH eq_refl). cbn [append] in IH.
    destruct IH as [-> E]. split; [reflexivity|].
    cbn [substring]. rewrite E. reflexivity.
Qed.

(** An index below 2^31 is kept by the conversion to [int]. *)
Lemma int_of_find_small (i : nat) :
  (N.of_nat i < 2 ^ 31)%N -> int_of_find (Some i) = Some i.
Proof.
  intros H. unfold int_of_find. cbv zeta.
  rewrite N.mod_small by (eapply N.lt_trans; [exact H|reflexivity]).
  apply N.ltb_lt in H. rewrite H, Nat2N.id. reflexivity.
Qed.

(** X5. For a name without ['='] and shorter than 2^31 characters, and any
    value, the key printed for the entry name=value is the name. *)
Theorem env_key_of_assignment (name value : string) :
  index 0 "=" name = None ->
  (N.of_nat (String.length name) < 2 ^ 31)%N ->
  env_key (name +++ "=" +++ value) = name.
Proof.
  intros H L. unfold env_key.
  destruct (index_assignment name value H) as [-> E].
  rewrite (int_of_find_small _ L). exact E.
Qed.

(** X6. The key printed for an environment entry is always a prefix of the
    entry. It is the whole entry when the entry has no ['='], and also when
    the index of the first ['='], taken modulo 2^32, is 2^31 or more (the
    [int] that holds it is negative). When the first ['='] is at an index
    below 2^31 the key is the text before it and holds no ['=']; in between,
    for an index [i] whose residue [r] modulo 2^32 is below 2^31, the key is
    the first [r] characters. *)
Theorem env_key_prefix (e : string) :
  prefix (env_key e) e = true /\
  (index 0 "=" e = None -> env_key e = e) /\
  (forall i, index 0 "=" e = Some i ->
     (N.of_nat i < 2 ^ 31)%N ->
     env_key e = substring 0 i e /\ index 0 "=" (env_key e) = None) /\
  (forall i, index 0 "=" e = Some i ->
     (2 ^ 31 <= N.of_nat i mod 2 ^ 32)%N ->
     env_key e = e) /\
  (forall i, index 0 "=" e = Some i ->
     (N.of_nat i mod 2 ^ 32 < 2 ^ 31)%N ->
     env_key e = substring 0 (N.to_nat (N.of_nat i mod 2 ^ 32)) e).
Proof.
  split; [|split; [|split; [|split]]].
  - unfold env_key. destruct (int_of_find (index 0 "=" e)).
    + apply prefix_substring.
    + apply prefix_refl.
  - intros H. unfold env_key. rewrite H. reflexivity.
  - intros i H L. unfold env_key. rewrite H, (int_of_find_small _ L).
    split; [reflexivity|]. apply index_before, H.
  - intros i H L. unfold env_key, int_of_find. rewrite H. cbv zeta.
    apply N.ltb_ge in L. rewrite L. reflexivity.
  - intros i H L. unfold env_key, int_of_find. rewrite H. cbv zeta.
    apply N.ltb_lt in L. rewrite L. reflexivity.
Qed.

(** ** How a run ends *)

Section Endings.
Context {X : Externals}.

Lemma configureMeters_Exited config ms meters c :
  outcome (configureMeters config ms meters) = Exited c ->
  c = 0%Z /\ Configuration.list_shell_envs config = true /\ ms <> [] /\
  existsb is_PrintMeter (events (configureMeters config ms meters)) = true.
Proof.
  revert meters. induction ms as [|m rest IH]; intros meters;
    [discriminate|].
  destruct (constructMeter_cases m meters) as [[_ E]|[K (f & fmt & E)]].
  - cbn [configureMeters]. rewrite E. discriminate.
  - destruct (Configuration.list_shell_envs config) eqn:L.
    + destruct (configureMeters_shell_envs config m rest meters L K)
        as (f' & fmt' & ->).
      cbn [outcome events]. intros H. inversion H.
      split; [reflexivity|]. split; [reflexivity|].
      split; [discriminate|reflexivity].
    + cbn [configureMeters]. rewrite E, bind_mkRun_Returned, L. cbn [when].
      rewrite bind_ret_l. unfold onUpdate_back, emit, ret.
      rewrite !bind_mkRun_Returned. cbn [events outcome].
      intros H. destruct (IH _ H) as (_ & L' & _ & _). discriminate.
Qed.

Lemma setupMeters_Exited config wmbus c :
  outcome (setupMeters config wmbus) = Exited c ->
  c = 0%Z /\ Configuration.list_shell_envs config = true /\
  Configuration.meters config <> [] /\
  existsb is_PrintMeter (events (setupMeters config wmbus)) = true.
Proof.
  unfold setupMeters.
  destruct (Configuration.meters config) as [|m rest] eqn:M;
    [discriminate|].
  change (0 <? List.length (m :: rest))%nat with true. cbv iota.
  destruct (outcome (configureMeters config (m :: rest) [])) as [a|c'|] eqn:O.
  - rewrite (bind_Returned _ _ _ O). discriminate.
  - rewrite (bind_Exited _ _ _ O). cbn [outcome events]. intros H.
    inversion H; subst. apply (configureMeters_Exited _ _ _ _ O).
  - rewrite (bind_Aborted _ _ O). discriminate.
Qed.

Lemma run_Exited (config : Configuration.t)
  (simulated incoming : list Telegram) (c : Z) :
  outcome (startUsingCommandline config simulated incoming) = Exited c ->
  (c = 1%Z /\
   detected (events (startUsingCommandline config simulated incoming)) =
     Some DEVICE_UNKNOWN)
  \/
  (c = 0%Z /\
   Configuration.list_shell_envs config = true /\
   Configuration.meters config <> [] /\
   existsb is_PrintMeter
     (events (startUsingCommandline config simulated incoming)) = true).
Proof.
  intros H.
  assert (R : returned (startup config) = false).
  { rewrite <- (run_returned config simulated incoming).
    unfold returned. rewrite H. reflexivity. }
  assert (Hs : outcome (startup config) = Exited c).
  { unfold startUsingCommandline, bind in H.
    destruct (outcome (startup config)) as [sys| |] eqn:O;
      [unfold returned in R; rewrite O in R; discriminate | exact H
       | discriminate]. }
  destruct (run_failed config simulated incoming R) as [Ev _].
  rewrite detected_run, Ev.
  destruct (startup_shape config)
    as [[_ Q]|(config' & pre & mid & wmbus & output & Sb & Qp & Qm & _ & S)].
  - left.
    destruct (startup_split config) as [[_ S]|[O (pre & _ & S)]];
      [rewrite S in Hs; discriminate|].
    rewrite O.
    destruct (MBusDeviceType_eqb
                (fst (detectMBusDevice (Configuration.device config)))
                DEVICE_UNKNOWN) eqn:U.
    + apply MBusDeviceType_eqb_eq in U.
      rewrite (configure_unknown _ _ _ U) in S. rewrite S in Hs.
      inversion Hs. rewrite U. split; reflexivity.
    + assert (K : fst (detectMBusDevice (Configuration.device config))
                  <> DEVICE_UNKNOWN) by (intros E; rewrite E in U; discriminate).
      destruct (chooseLinkMode_cases
                  (fst (detectMBusDevice (Configuration.device config))) config)
        as [[config' E]|[fmt E]].
      * exfalso.
        destruct (run_early config simulated incoming R Q) as [L1 _].
        destruct (run_link_ok config simulated incoming config' O K E)
          as [L2 _].
        rewrite L1 in L2. discriminate.
      * rewrite (configure_link_error _ _ _ _ K E) in S. rewrite S in Hs.
        discriminate.
  - right. rewrite S, bind_mkRun_Returned in Hs |- *.
    cbn [events outcome] in *.
    destruct (outcome (setupMeters config' wmbus)) as [wm|c'|] eqn:O.
    + rewrite (bind_Returned _ _ _ O) in Hs. discriminate.
    + rewrite (bind_Exited _ _ _ O) in Hs |- *. cbn [events outcome] in *.
      inversion Hs; subst c'.
      destruct (setupMeters_Exited _ _ _ O) as (-> & Le & Ne & P).
      destruct (same_but_link_mode_fields _ _ Sb) as (M & Le' & _).
      rewrite <- M, <- Le'. repeat split; auto.
      rewrite existsb_app, P. apply orb_true_r.
    + rewrite (bind_Aborted _ _ O) in Hs. discriminate.
Qed.

(** X11. The start-up itself ends the process with [exit] in two ways
    only: with code 1 when no device is detected, and with code 0 after it
    has listed the shell environment of a meter, which takes the flag and a
    configured meter. In both cases the event loop was not entered. *)
Theorem exit_codes_of_a_run (config : Configuration.t)
  (simulated incoming : list Telegram) (c : Z) :
  outcome (startUsingCommandline config simulated incoming) = Exited c ->
  existsb is_WaitForStop
    (events (startUsingCommandline config simulated incoming)) = false /\
  ((c = 1%Z /\
    detected (events (startUsingCommandline config simulated incoming)) =
      Some DEVICE_UNKNOWN)
   \/
   (c = 0%Z /\
    Configuration.list_shell_envs config = true /\
    Configuration.meters config <> [] /\
    existsb is_PrintMeter
      (events (startUsingCommandline config simulated incoming)) = true)).
Proof.
  intros H. split.
  - rewrite run_WaitForStop. unfold returned. rewrite H. reflexivity.
  - apply run_Exited. exact H.
Qed.
End Endings.


(** ** The process: main, the pid file and the daemon *)

Lemma core_app (a b : list SysEvent) : core (a ++ b) = core a ++ core b.
Proof.
  induction a as [|e a IH]; [reflexivity|].
  destruct e; simpl; rewrite ?IH; reflexivity.
Qed.

Lemma core_lift (tr : list Event) : core (map Core tr) = tr.
Proof. induction tr as [|e tr IH]; simpl; congruence. Qed.

Lemma not_LoadConfiguration_lift (tr : list Event) :
  existsb is_LoadConfiguration (map Core tr) = false.
Proof. induction tr as [|e tr IH]; simpl; auto. Qed.

Lemma not_Fprintf_lift (tr : list Event) :
  existsb is_Fprintf (map Core tr) = false.
Proof. induction tr as [|e tr IH]; simpl; auto. Qed.

Lemma ltb_0_pos (z : Z) : (0 < z)%Z -> (0 <? z)%Z = true /\ (z <? 0)%Z = false.
Proof. intros H. split; [apply Z.ltb_lt | apply Z.ltb_ge]; lia. Qed.

Lemma ltb_0_nonneg (z : Z) : (0 <= z)%Z -> (z <? 0)%Z = false.
Proof. intros H. apply Z.ltb_ge. lia. Qed.

Section Process.
Context {X : Externals} {L : ConfigFiles}.

(** X12. The pre-check call of [writePid], with a pid that is not
    positive, only opens and closes the pid file: nothing is written and no
    start is announced; it is fatal exactly when the file cannot be opened
    for writing. *)
Theorem writePid_precheck (pid_file : string) (pid : Z) (opened : bool)
  (n : Z) :
  (pid <= 0)%Z ->
  writePid pid_file pid opened n =
  if opened
  then mkProc [Fopen pid_file "w"; Fclose] (Returned tt)
  else mkProc [Fopen pid_file "w";
               Core (Log LError
                       ("Could not open pid file " +++ dq +++ "%s" +++ dq
                          +++ " for writing!\n")
                       [AStr pid_file])]
              Aborted.
Proof.
  intros H. unfold writePid.
  replace (0 <? pid)%Z with false by (symmetry; apply Z.ltb_ge; lia).
  destruct opened; reflexivity.
Qed.

(** X13. With the file open and a positive pid, [writePid] reports a write
    error only when [fprintf] returns 0. Any other result, the negative
    value by which [fprintf] signals a failure included, is taken for
    success: the start is announced and the function returns. *)
Theorem writePid_write_error (pid_file : string) (pid n : Z) :
  (0 < pid)%Z ->
  writePid pid_file pid true n =
  if (n =? 0)%Z
  then mkProc [Fopen pid_file "w"; Fprintf "%d\n" [AInt pid];
               Core (Log LError
                       ("Could not write pid (%d) to file " +++ dq +++ "%s"
                          +++ dq +++ "!\n")
                       [AInt pid; AStr pid_file])]
              Aborted
  else mkProc [Fopen pid_file "w"; Fprintf "%d\n" [AInt pid];
               Core (Log LNotice "(wmbusmeters) started %s\n" [AStr pid_file]);
               Fclose]
              (Returned tt).
Proof.
  intros H. unfold writePid.
  destruct (ltb_0_pos pid H) as [-> _].
  destruct (n =? 0)%Z; reflexivity.
Qed.

Lemma startUsingConfigFiles_run root is_daemon simulated incoming :
  startUsingConfigFiles root is_daemon simulated incoming =
  mkProc (LoadConfiguration root
            :: map Core
                 (events (startUsingCommandline
                            (with_daemon (loadConfiguration root) is_daemon)
                            simulated incoming)))
         (match outcome (startUsingCommandline
                           (with_daemon (loadConfiguration root) is_daemon)
                           simulated incoming) with
          | Returned _ => Returned tt
          | Exited c => Exited c
          | Aborted => Aborted
          end).
Proof.
  unfold startUsingConfigFiles, pbind, lift, sys; simpl.
  destruct (outcome (startUsingCommandline _ _ _)); simpl;
    rewrite ?app_nil_r; reflexivity.
Qed.

(** The child of the daemon, once session and directory are set. *)
Lemma startDaemon_child pid_file os simulated incoming :
  Os.fopen_check os = true -> Os.fork os = 0%Z ->
  (0 <= Os.setsid os)%Z -> (0 <= Os.chdir os)%Z ->
  startDaemon pid_file os simulated incoming =
  mkProc ([Setlogmask; Openlog "wmbusmetersd"; EnableSyslog;
           Fopen pid_file "w"; Fclose; Fork; Umask 0; Setsid; Chdir "/";
           Close 0; Close 1; Close 2; LoadConfiguration EmptyString]
          ++ map Core
               (events (startUsingCommandline
                          (with_daemon (loadConfiguration EmptyString) true)
                          simulated incoming)))
         (match outcome (startUsingCommandline
                           (with_daemon (loadConfiguration EmptyString) true)
                           simulated incoming) with
          | Returned _ => Returned tt
          | Exited c => Exited c
          | Aborted => Aborted
          end).
Proof.
  intros F P S C. unfold startDaemon, writePid.
  rewrite F, P, (ltb_0_nonneg _ S), (ltb_0_nonneg _ C).
  rewrite startUsingConfigFiles_run. reflexivity.
Qed.

(** X14. The pid file is checked before the process forks: when it cannot
    be opened for writing, [startDaemon] ends with [error] and neither
    [fork()] nor the loading of the configuration takes place. *)
Theorem startDaemon_checks_pid_file_first (pid_file : string) (os : Os.t)
  (simulated incoming : list Telegram) :
  Os.fopen_check os = false ->
  ending (startDaemon pid_file os simulated incoming) = Aborted /\
  existsb is_Fork (sysevents (startDaemon pid_file os simulated incoming)) =
    false /\
  existsb is_LoadConfiguration
    (sysevents (startDaemon pid_file os simulated incoming)) = false /\
  core (sysevents (startDaemon pid_file os simulated incoming)) =
    [Log LError ("Could not open pid file " +++ dq +++ "%s" +++ dq
                   +++ " for writing!\n")
         [AStr pid_file]].
Proof.
  intros F. unfold startDaemon, writePid.
  rewrite F. repeat split.
Qed.

(** X15. In the parent, where [fork()] returns the positive pid of the
    child, [startDaemon] writes that pid and returns: it loads no
    configuration and never touches a device; it returns exactly when the
    pid file could be opened again and [fprintf] did not return 0. *)
Theorem startDaemon_parent (pid_file : string) (os : Os.t)
  (simulated incoming : list Telegram) :
  Os.fopen_check os = true ->
  (0 < Os.fork os)%Z ->
  existsb is_LoadConfiguration
    (sysevents (startDaemon pid_file os simulated incoming)) = false /\
  detected (core (sysevents (startDaemon pid_file os simulated incoming))) =
    None /\
  existsb is_Fprintf (sysevents (startDaemon pid_file os simulated incoming)) =
    Os.fopen_store os /\
  ending (startDaemon pid_file os simulated incoming) =
    if Os.fopen_store os && negb (Os.fprintf os =? 0)%Z
    then Returned tt else Aborted.
Proof.
  intros F P. unfold startDaemon, writePid.
  rewrite F. destruct (ltb_0_pos _ P) as [P1 P2]. rewrite P1, P2.
  destruct (Os.fopen_store os); [|repeat split].
  destruct (Os.fprintf os =? 0)%Z; repeat split.
Qed.

(** X16. In the child, once [setsid] and [chdir] have succeeded, the
    program of [startUsingCommandline] runs on the configuration loaded
    from the empty root with the daemon flag forced on, after the three
    standard streams were closed; a log file that cannot be opened does not
    stop it, device detection is always reached. *)
Theorem startDaemon_child_reaches_detection (pid_file : string) (os : Os.t)
  (simulated incoming : list Telegram) :
  Os.fopen_check os = true -> Os.fork os = 0%Z ->
  (0 <= Os.setsid os)%Z -> (0 <= Os.chdir os)%Z ->
  core (sysevents (startDaemon pid_file os simulated incoming)) =
    events (startUsingCommandline
              (with_daemon (loadConfiguration EmptyString) true)
              simulated incoming) /\
  detected (core (sysevents (startDaemon pid_file os simulated incoming))) =
    Some (fst (detectMBusDevice
                 (Configuration.device (loadConfiguration EmptyString)))) /\
  existsb is_Fprintf (sysevents (startDaemon pid_file os simulated incoming)) =
    false.
Proof.
  intros F P S C. rewrite (startDaemon_child _ _ _ _ F P S C).
  cbn [sysevents]. rewrite core_app, core_lift. cbn [core app].
  split; [reflexivity|]. split.
  - rewrite detected_run.
    pose proof (openLogfile_outcome
                  (with_daemon (loadConfiguration EmptyString) true)) as O.
    cbn [with_daemon Configuration.daemon] in O.
    rewrite andb_false_r in O. rewrite O. reflexivity.
  - cbn [existsb is_Fprintf orb]. apply not_Fprintf_lift.
Qed.

(** X19. When [setsid] fails in the child, the process ends with
    [exit(-1)] on the spot: nothing is logged, the standard streams are
    not closed and no configuration is loaded. *)
Theorem startDaemon_setsid_failure (pid_file : string) (os : Os.t)
  (simulated incoming : list Telegram) :
  Os.fopen_check os = true -> Os.fork os = 0%Z -> (Os.setsid os < 0)%Z ->
  startDaemon pid_file os simulated incoming =
  mkProc [Setlogmask; Openlog "wmbusmetersd"; EnableSyslog;
          Fopen pid_file "w"; Fclose; Fork; Umask 0; Setsid]
         (Exited (-1)).
Proof.
  intros F P S. unfold startDaemon, writePid. rewrite F, P.
  replace (Os.setsid os <? 0)%Z with true
    by (symmetry; apply Z.ltb_lt; exact S).
  reflexivity.
Qed.
End Process.

Section Main.
Context {X : Externals} {L : ConfigFiles}.




(** X18. With --useconfig, and neither help nor daemon asked for, the
    command line has no further say: two command lines with the same
    configuration root behave alike whatever their other options, the
    operating system answers included, and the program runs on the loaded
    configuration with the daemon flag forced off. *)
Theorem main_useconfig_ignores_options (c1 c2 : CommandLine.t)
  (os1 os2 : Os.t) (simulated incoming : list Telegram) :
  CommandLine.need_help c1 = false -> CommandLine.need_help c2 = false ->
  Configuration.daemon (CommandLine.config c1) = false ->
  Configuration.daemon (CommandLine.config c2) = false ->
  CommandLine.useconfig c1 = true -> CommandLine.useconfig c2 = true ->
  CommandLine.config_root c1 = CommandLine.config_root c2 ->
  main c1 os1 simulated incoming = main c2 os2 simulated incoming /\
  core (sysevents (main c1 os1 simulated incoming)) =
    events (startUsingCommandline
              (with_daemon (loadConfiguration (CommandLine.config_root c1))
                           false)
              simulated incoming).
Proof.
  intros H1 H2 D1 D2 U1 U2 R. unfold main.
  rewrite H1, H2, D1, D2, U1, U2, R. split; [reflexivity|].
  rewrite startUsingConfigFiles_run. unfold pbind. cbn [ending sysevents].
  destruct (outcome (startUsingCommandline _ _ _));
    cbn [sysevents core app]; rewrite ?app_nil_r; cbn [core];
    apply core_lift.
Qed.
End Main.

(** ** The further properties at the sample inputs *)

Lemma explicit_link_mode_used_witness :
  Configuration.link_mode_set Scenario.explicit_t1 = true /\
  linkModesSet
    (events (@startUsingCommandline Sample.externals Scenario.explicit_t1
               [] [Sample.t1])) = [T1].
Proof.
  split; [reflexivity|].
  exact (proj2 (@explicit_link_mode_used Sample.externals Scenario.explicit_t1
                  [] [Sample.t1] DEVICE_IM871A eq_refl eq_refl
                  ltac:(discriminate))).
Defined.

Lemma logfile_failure_witness :
  @startUsingCommandline Sample.externals Scenario.no_logfile [] [Sample.t1] =
  mkRun [Log LVerbose "(wmbusmeters) using log file %s\n"
           [AStr "/nonexistent/log"];
         EnableLogfile "/nonexistent/log" false;
         Log LError "Could not open log file.\n" []]
        Aborted.
Proof.
  exact (@logfile_failure Sample.externals Scenario.no_logfile [] [Sample.t1]
           eq_refl eq_refl).
Defined.

Lemma rtlwmbus_command_spawned_witness :
  In (OpenDevice DEVICE_RTLWMBUS "my_receiver --pipe")
     (events (@startUsingCommandline Sample.externals Scenario.own_command
                [] [])).
Proof.
  exact (proj1 (@rtlwmbus_command_spawned Sample.externals
                  Scenario.own_command [] [] eq_refl)).
Defined.


Lemma env_key_of_assignment_witness :
  index 0 "=" "METER_JSON" = None /\
  (N.of_nat (String.length "METER_JSON") < 2 ^ 31)%N /\
  env_key ("METER_JSON" +++ "=" +++ "{a=1}") = "METER_JSON".
Proof.
  split; [reflexivity|]. split; [reflexivity|].
  exact (env_key_of_assignment "METER_JSON" "{a=1}" eq_refl eq_refl).
Defined.

Lemma env_key_prefix_witness :
  index 0 "=" "METER_ID=12345678" = Some 8 /\
  (N.of_nat 8 < 2 ^ 31)%N /\
  env_key "METER_ID=12345678" = "METER_ID".
Proof.
  split; [reflexivity|]. split; [reflexivity|].
  exact (proj1 (proj1 (proj2 (proj2 (env_key_prefix "METER_ID=12345678")))
                  8 eq_refl eq_refl)).
Defined.

Lemma meters_follow_configuration_witness :
  map identity (sys_meters Sample.started) =
    [("kitchen", "78563412", Sample.right_key);
     ("bath", "11223344", Sample.right_key)] /\
  Forall (fun m => Meter.numUpdates m = 0%N) (sys_meters Sample.started) /\
  List.length (sys_meters Sample.started) = 2.
Proof.
  exact (@meters_follow_configuration Sample.externals Sample.oneshot_config
           Sample.started eq_refl).
Defined.


Lemma unknown_meter_type_never_starts_witness :
  returned (Sample.run "rtlwmbus" [Sample.kitchen; Scenario.ghost] [Sample.t1])
  = false.
Proof.
  exact (proj1 (@unknown_meter_type_never_starts Sample.externals
                  (Sample.config "rtlwmbus" [Sample.kitchen; Scenario.ghost])
                  [] [Sample.t1] Scenario.ghost
                  (or_intror (or_introl eq_refl)) eq_refl)).
Defined.

Lemma exit_codes_of_a_run_witness :
  outcome (Sample.run "nothing" [] []) = Exited 1 /\
  existsb is_WaitForStop (events (Sample.run "nothing" [] [])) = false.
Proof.
  split; [reflexivity|].
  exact (proj1 (@exit_codes_of_a_run Sample.externals
                  (Sample.config "nothing" []) [] [] 1%Z eq_refl)).
Defined.

Lemma writePid_precheck_witness :
  @writePid "/run/wmbusmeters.pid" 0 true 0 =
  mkProc [Fopen "/run/wmbusmeters.pid" "w"; Fclose] (Returned tt).
Proof.
  exact (@writePid_precheck "/run/wmbusmeters.pid" 0%Z true 0%Z
           ltac:(discriminate)).
Defined.

Lemma writePid_write_error_witness :
  ending (@writePid "/run/wmbusmeters.pid" 4711 true (-1)) = Returned tt.
Proof.
  exact (f_equal ending
           (@writePid_write_error "/run/wmbusmeters.pid" 4711%Z (-1)%Z
              eq_refl)).
Defined.

Lemma startDaemon_checks_pid_file_first_witness :
  ending (@startDaemon Sample.externals Scenario.files "/run/pid"
            Scenario.os_unwritable [] []) = Aborted.
Proof.
  exact (proj1 (@startDaemon_checks_pid_file_first Sample.externals
                  Scenario.files "/run/pid" Scenario.os_unwritable [] []
                  eq_refl)).
Defined.

Lemma startDaemon_parent_witness :
  existsb is_LoadConfiguration
    (sysevents (@startDaemon Sample.externals Scenario.files "/run/pid"
                  Scenario.os_parent [] [Sample.t1])) = false.
Proof.
  exact (proj1 (@startDaemon_parent Sample.externals Scenario.files "/run/pid"
                  Scenario.os_parent [] [Sample.t1] eq_refl eq_refl)).
Defined.

Lemma startDaemon_child_reaches_detection_witness :
  detected
    (core (sysevents (@startDaemon Sample.externals Scenario.files "/run/pid"
                        Scenario.os_child [] [Sample.t1]))) =
  Some DEVICE_RTLWMBUS.
Proof.
  exact (proj1 (proj2 (@startDaemon_child_reaches_detection Sample.externals
                         Scenario.files "/run/pid" Scenario.os_child []
                         [Sample.t1] eq_refl eq_refl
                         ltac:(discriminate) ltac:(discriminate)))).
Defined.


Lemma main_useconfig_ignores_options_witness :
  @main Sample.externals Scenario.files Scenario.use_config Scenario.os_child
        [] [Sample.t1] =
  @main Sample.externals Scenario.files Scenario.use_config' Scenario.os_parent
        [] [Sample.t1].
Proof.
  exact (proj1 (@main_useconfig_ignores_options Sample.externals Scenario.files
                  Scenario.use_config Scenario.use_config'
                  Scenario.os_child Scenario.os_parent [] [Sample.t1]
                  eq_refl eq_refl eq_refl eq_refl eq_refl eq_refl eq_refl)).
Defined.

Lemma startDaemon_setsid_failure_witness :
  ending (@startDaemon Sample.externals Scenario.files "/run/pid"
            (Os.mk true 0 true 5 (-1) 0) [] [Sample.t1]) = Exited (-1).
Proof.
  exact (f_equal ending
           (@startDaemon_setsid_failure Sample.externals Scenario.files
              "/run/pid" (Os.mk true 0 true 5 (-1) 0) [] [Sample.t1]
              eq_refl eq_refl eq_refl)).
Defined.
